(** * Jet Stream Clean quote application: the pricing engine of [App.js]

    The engine is the callback of the [useMemo] hook of [App]: it reads the
    selection state of the component and returns [{ lines, subtotal, total }].
    This file embeds that callback, the [RATES] table it reads, and proves the
    properties of the quote summary.

    Numbers.  Every amount of money is a fixed-point number with two decimals,
    kept as the integer number of hundredths ([usd 45] is [45], [4999] is
    [49.99]).  Quantities, square footages and cushion counts are plain
    integers: the input handlers store [Math.max(0, parseInt(..))] and the
    counters add or subtract one.  Where a state variable holds [NaN] the engine
    treats it like [0] ([x || 0], [x > 0]), so integers lose no behaviour.
    The arithmetic is exact: the doubles of the source are not modelled.

    The [desc] texts of the carpet packages and the state that the engine does
    not read (the step, the contact fields, the [active] toggles) are left
    out.

    Besides the engine the file embeds [fmt] and [buildQuoteText], which turn
    a summary into the text that is copied, and the handlers of the form that
    produce the selection the engine reads. *)

From Stdlib Require Import ZArith Lia List DecimalString.
From Stdlib Require DecimalPos DecimalZ.
From stdpp Require Import gmap strings list.


Local Open Scope Z_scope.

(** ** Fixed-point amounts *)

Definition usd (d : Z) : Z := d * 100.

(** [Math.round(a * b)] for two amounts [a] and [b]: the product has four
    decimals, [Math.round] is [floor(x + 0.5)], the result is a whole number
    of currency units. *)
Definition Math_round_mul (a b : Z) : Z := usd ((a * b + 5000) / 10000).

(** [String(n)] for an integer. *)
Definition string_of_Z (z : Z) : string := NilZero.string_of_int (Z.to_int z).

(** ** The rate table *)

Inductive tier := standard | reset | deluxe.

Record rate := mkRate { label : string; price : Z }.

Module RATES.

Definition minCharge : Z := usd 135.

Inductive zoneKey := local | extended.

Definition serviceZones (z : zoneKey) : rate :=
  match z with
  | local => mkRate "Local (within 50 miles of Fort Mitchell)" (usd 0)
  | extended => mkRate "Extended (55+ miles from Fort Mitchell)" (usd 45)
  end.

Inductive areaType := rooms | stairs | downHall | upLanding | walkIn.

Definition carpets (a : areaType) (k : tier) : rate :=
  match a, k with
  | rooms, standard => mkRate "Standard Steam Clean" (usd 45)
  | rooms, reset => mkRate "Factory Reset Clean" (usd 90)
  | rooms, deluxe => mkRate "Factory Reset Deluxe" (usd 135)
  | stairs, standard => mkRate "Standard Steam Clean (Stairs)" (usd 65)
  | stairs, reset => mkRate "Factory Reset Clean (Stairs)" (usd 130)
  | stairs, deluxe => mkRate "Factory Reset Deluxe (Stairs)" (usd 170)
  | downHall, standard => mkRate "Standard Steam Clean (Downstairs Hallway)" (usd 20)
  | downHall, reset => mkRate "Factory Reset Clean (Downstairs Hallway)" (usd 40)
  | downHall, deluxe => mkRate "Factory Reset Deluxe (Downstairs Hallway)" (usd 60)
  | upLanding, standard => mkRate "Standard Steam Clean (Upstairs Landing)" (usd 65)
  | upLanding, reset => mkRate "Factory Reset Clean (Upstairs Landing)" (usd 130)
  | upLanding, deluxe => mkRate "Factory Reset Deluxe (Upstairs Landing)" (usd 175)
  | walkIn, standard => mkRate "Standard Steam Clean (Walk-In Closet)" (usd 20)
  | walkIn, reset => mkRate "Factory Reset Clean (Walk-In Closet)" (usd 40)
  | walkIn, deluxe => mkRate "Factory Reset Deluxe (Walk-In Closet)" (usd 60)
  end.

(** [Object.keys] of a package object: insertion order. *)
Definition tierKeys : list tier := [standard; reset; deluxe].

(** [tile.rate] is [0.5]. *)
Definition tile_rate : Z := 50.

Inductive uphKey :=
| ottoman | accentChair | diningChair | recliner | oversizedChair
| throwPillow | loveseat | couch3 | couch4 | sectional
| mattressTwin | mattressFull | mattressQueen | mattressKing.

Definition upholstery (k : uphKey) : rate :=
  match k with
  | ottoman => mkRate "Ottoman" (usd 40)
  | accentChair => mkRate "Accent Chair" (usd 40)
  | diningChair => mkRate "Dining Chair" (usd 25)
  | recliner => mkRate "Recliner Chair" (usd 65)
  | oversizedChair => mkRate "Oversized Double Chair" (usd 65)
  | throwPillow => mkRate "Throw Pillow" (usd 5)
  | loveseat => mkRate "Loveseat" (usd 85)
  | couch3 => mkRate "Couch (3 Cushions)" (usd 100)
  | couch4 => mkRate "Couch (4 Cushions)" (usd 140)
  | sectional => mkRate "Sectional (by cushions)" (usd 0)
  | mattressTwin => mkRate "Twin Mattress" (usd 50)
  | mattressFull => mkRate "Full Mattress" (usd 65)
  | mattressQueen => mkRate "Queen Mattress" (usd 80)
  | mattressKing => mkRate "King Mattress" (usd 95)
  end.

(** An object with the numeric keys 4 to 12. *)
Definition sectionalPrices : gmap Z Z :=
  list_to_map
    [ (4, usd 140); (5, usd 195); (6, usd 235); (7, usd 275); (8, usd 315);
      (9, usd 355); (10, usd 395); (11, usd 435); (12, usd 485) ].

Definition deodorizerCap : Z := usd 20.
Definition fabricProtectorCap : Z := usd 50.
(** [0.15] and [0.20]. *)
Definition deodorizerPct : Z := 15.
Definition fabricProtectorPct : Z := 20.

Inductive rugSize := small | medium | large | xlarge | xxlarge | huge | massive.

Definition rugs_label (s : rugSize) : string :=
  match s with
  | small => "Below 5x8"
  | medium => "5x8 to 6x9"
  | large => "6x9 to 8x10"
  | xlarge => "8x10 to 9x12"
  | xxlarge => "9x12 to 10x14"
  | huge => "10x14 to 12x18"
  | massive => "12x18 to 20x20"
  end.

Definition rugs (s : rugSize) (k : tier) : Z :=
  match s, k with
  | small, standard => usd 50 | small, reset => usd 75 | small, deluxe => usd 100
  | medium, standard => usd 60 | medium, reset => usd 90 | medium, deluxe => usd 120
  | large, standard => usd 75 | large, reset => usd 112 | large, deluxe => usd 150
  | xlarge, standard => usd 90 | xlarge, reset => usd 135 | xlarge, deluxe => usd 180
  | xxlarge, standard => usd 110 | xxlarge, reset => usd 165 | xxlarge, deluxe => usd 220
  | huge, standard => usd 162 | huge, reset => usd 243 | huge, deluxe => usd 324
  | massive, standard => usd 300 | massive, reset => usd 450 | massive, deluxe => usd 600
  end.

(** [49.99] and [129.99]. *)
Definition pest_monthly : rate := mkRate "Monthly General Pest Control" 4999.
Definition pest_oneTime : rate := mkRate "One-Time General Pest Control" 12999.
Definition pest_flea1600 : Z := usd 149.
Definition pest_flea3200 : Z := usd 300.

End RATES.

(** ** The selection state of the component *)

(** The keys the engine walks for the upholstery items: [sectional] is not
    among them. *)
Definition uphKeys : list RATES.uphKey :=
  [ RATES.ottoman; RATES.accentChair; RATES.diningChair; RATES.recliner;
    RATES.oversizedChair; RATES.throwPillow; RATES.loveseat; RATES.couch3;
    RATES.couch4; RATES.mattressTwin; RATES.mattressFull; RATES.mattressQueen;
    RATES.mattressKing ].

Definition rugSizes : list RATES.rugSize :=
  [ RATES.small; RATES.medium; RATES.large; RATES.xlarge; RATES.xxlarge;
    RATES.huge; RATES.massive ].

(** The state variables the hook depends on.  An object keyed by package,
    item or size is a function on the closed key set; the [sectional] slot of
    the three upholstery objects is never read. *)
Record Selection := mkSelection {
  carpetRooms : tier -> Z;
  carpetStairs : tier -> Z;
  downHall : tier -> Z;
  upLanding : tier -> Z;
  walkIn : tier -> Z;
  tileTotalSqft : Z;
  uphQty : RATES.uphKey -> Z;
  uphDeo : RATES.uphKey -> bool;
  uphProt : RATES.uphKey -> bool;
  sectionalCushions : Z;
  sectionalQty : Z;
  sectionalDeo : bool;
  sectionalProt : bool;
  rugPackages : RATES.rugSize -> tier -> Z;
  pestMonthly : bool;
  pestOneTime : bool;
  pestHomeSqft : Z;
  zone : string
}.

(** ** Line items and the accumulator of the engine *)

Record LineItem := mkLine {
  l_label : string;
  l_qty : Z;
  l_each : Z;
  l_total : Z
}.

(** The two locals the callback mutates: [lines] and [sub]. *)
Record Acc := mkAcc { lines : list LineItem; sub : Z }.

Definition push (l : LineItem) (a : Acc) : Acc := mkAcc (lines a ++ [l]) (sub a).
Definition addSub (z : Z) (a : Acc) : Acc := mkAcc (lines a) (sub a + z).

(** [keys.forEach(body)] on the accumulator. *)
Definition forEach {K} (keys : list K) (body : K -> Acc -> Acc) (a : Acc) : Acc :=
  fold_left (fun a k => body k a) keys a.

(** ** The engine *)

(** One of the five carpet blocks (rooms, stairs, downstairs hallway,
    upstairs landing, walk-in closet): they differ in the area and in the
    state variable only. *)
Definition carpetBody (area : RATES.areaType) (state : tier -> Z) (k : tier)
    (a : Acc) : Acc :=
  let qty := state k in
  if qty =? 0 then a else
  let each := price (RATES.carpets area k) in
  let total := qty * each in
  addSub total (push (mkLine (label (RATES.carpets area k)) qty each total) a).

Definition carpetBlock (area : RATES.areaType) (state : tier -> Z) : Acc -> Acc :=
  forEach RATES.tierKeys (carpetBody area state).

Definition tileBlock (s : Selection) (a : Acc) : Acc :=
  let t := Z.max 0 (tileTotalSqft s) in
  if 0 <? t then
    let total := t * RATES.tile_rate in
    push (mkLine "Tile and Grout Cleaning" t RATES.tile_rate total) (addSub total a)
  else a.

Definition deoPct := RATES.deodorizerPct.
Definition fabricPct := RATES.fabricProtectorPct.
Definition deoCap := RATES.deodorizerCap.
Definition fabricCap := RATES.fabricProtectorCap.

(** [RATES.sectionalPrices[sectionalCushions] || 0] *)
Definition sectionalBase (s : Selection) : Z :=
  default 0 (RATES.sectionalPrices !! sectionalCushions s).

Definition sectionalBlock (s : Selection) (a : Acc) : Acc :=
  if 0 <? sectionalQty s then
    let sectionalTotal := sectionalBase s * sectionalQty s in
    let a := addSub sectionalTotal a in
    let a :=
      push (mkLine ("Sectional - " +:+ string_of_Z (sectionalCushions s) +:+ " cushions")
              (sectionalQty s) (sectionalBase s) sectionalTotal) a in
    let a :=
      if sectionalDeo s then
        let deoEach := Z.min deoCap (Math_round_mul (sectionalBase s) deoPct) in
        let total := deoEach * sectionalQty s in
        push (mkLine "Sectional - Deodorizer" (sectionalQty s) deoEach total)
          (addSub total a)
      else a in
    if sectionalProt s then
      let fabricEach := Z.min fabricCap (Math_round_mul (sectionalBase s) fabricPct) in
      let total := fabricEach * sectionalQty s in
      push (mkLine "Sectional - Fabric Protector" (sectionalQty s) fabricEach total)
        (addSub total a)
    else a
  else a.

Definition uphBody (s : Selection) (k : RATES.uphKey) (a : Acc) : Acc :=
  let base := price (RATES.upholstery k) in
  let qty := uphQty s k in
  if qty =? 0 then a else
  let baseTotal := base * qty in
  let a := addSub baseTotal a in
  let a := push (mkLine (label (RATES.upholstery k)) qty base baseTotal) a in
  let a :=
    if uphDeo s k then
      let deoEach := Z.min deoCap (Math_round_mul base deoPct) in
      let total := deoEach * qty in
      push (mkLine (label (RATES.upholstery k) +:+ " - Deodorizer") qty deoEach total)
        (addSub total a)
    else a in
  if uphProt s k then
    let fabricEach := Z.min fabricCap (Math_round_mul base fabricPct) in
    let total := fabricEach * qty in
    push (mkLine (label (RATES.upholstery k) +:+ " - Fabric Protector") qty fabricEach total)
      (addSub total a)
  else a.

Definition uphBlock (s : Selection) : Acc -> Acc := forEach uphKeys (uphBody s).

Definition pkgName (pkg : tier) : string :=
  match pkg with
  | standard => "Standard Steam Clean"
  | reset => "Factory Reset Clean"
  | deluxe => "Factory Reset Deluxe"
  end.

Definition rugBody (s : Selection) (size : RATES.rugSize) (pkg : tier) (a : Acc) : Acc :=
  let qty := rugPackages s size pkg in
  if qty =? 0 then a else
  let each := RATES.rugs size pkg in
  let total := qty * each in
  addSub total
    (push (mkLine ("Area Rug " +:+ RATES.rugs_label size +:+ " - " +:+ pkgName pkg)
             qty each total) a).

Definition rugBlock (s : Selection) : Acc -> Acc :=
  forEach rugSizes (fun size => forEach [standard; reset; deluxe] (rugBody s size)).

Definition pestMonthlyBlock (s : Selection) (a : Acc) : Acc :=
  if pestMonthly s then
    let each := price RATES.pest_monthly in
    push (mkLine "Monthly General Pest Control (AL only)" 1 each each) (addSub each a)
  else a.

Definition pestOneTimeBlock (s : Selection) (a : Acc) : Acc :=
  if pestOneTime s then
    let each := price RATES.pest_oneTime in
    push (mkLine "One-Time General Pest Control (AL only)" 1 each each) (addSub each a)
  else a.

(** The label and the price the flea and tick branch settles on.  Above
    3200 square feet the label gets a suffix and the price stays 0. *)
Definition fleaLabelPrice (sqft : Z) : string * Z :=
  let label := "Move-Out Flea and Tick (AL only)" in
  let price := 0 in
  if sqft <=? 1600 then (label, RATES.pest_flea1600)
  else if sqft <=? 3200 then (label, RATES.pest_flea3200)
  else (label +:+ " - custom quote", price).

Definition fleaBlock (s : Selection) (a : Acc) : Acc :=
  if 0 <? pestHomeSqft s then
    let '(label, price) := fleaLabelPrice (pestHomeSqft s) in
    if 0 <? price then
      push (mkLine label 1 price price) (addSub price a)
    else a
  else a.

Definition zoneFee (s : Selection) : Z :=
  if String.eqb (zone s) "extended" then price (RATES.serviceZones RATES.extended) else 0.

Definition zoneBlock (s : Selection) (a : Acc) : Acc :=
  if 0 <? zoneFee s then
    push (mkLine "Service Zone Fee" 1 (zoneFee s) (zoneFee s)) (addSub (zoneFee s) a)
  else a.

Definition minChargeBlock (a : Acc) : Acc :=
  if (sub a <? RATES.minCharge) && (0 <? sub a) then
    let diff := RATES.minCharge - sub a in
    push (mkLine "Minimum Charge Adjustment" 1 diff diff) (addSub diff a)
  else a.

(** Everything before the minimum charge step, from the empty [lines] and
    [sub = 0]. *)
Definition rawQuote (s : Selection) : Acc :=
  let a := mkAcc [] 0 in
  let a := carpetBlock RATES.rooms (carpetRooms s) a in
  let a := carpetBlock RATES.stairs (carpetStairs s) a in
  let a := carpetBlock RATES.downHall (downHall s) a in
  let a := carpetBlock RATES.upLanding (upLanding s) a in
  let a := carpetBlock RATES.walkIn (walkIn s) a in
  let a := tileBlock s a in
  let a := sectionalBlock s a in
  let a := uphBlock s a in
  let a := rugBlock s a in
  let a := pestMonthlyBlock s a in
  let a := pestOneTimeBlock s a in
  let a := fleaBlock s a in
  zoneBlock s a.

Record QuoteSummary := mkSummary {
  q_lines : list LineItem;
  q_subtotal : Z;
  q_total : Z
}.

(** The callback of the [useMemo] hook. *)
Definition computeQuote (s : Selection) : QuoteSummary :=
  let a := minChargeBlock (rawQuote s) in
  mkSummary (lines a) (sub a) (sub a).

(** The initial state of the component. *)
Definition initialSelection : Selection :=
  {| carpetRooms := fun _ => 0; carpetStairs := fun _ => 0; downHall := fun _ => 0;
     upLanding := fun _ => 0; walkIn := fun _ => 0;
     tileTotalSqft := 0;
     uphQty := fun _ => 0; uphDeo := fun _ => false; uphProt := fun _ => false;
     sectionalCushions := 6; sectionalQty := 0;
     sectionalDeo := false; sectionalProt := false;
     rugPackages := fun _ _ => 0;
     pestMonthly := false; pestOneTime := false; pestHomeSqft := 0;
     zone := "local" |}.

(** ** Views of the engine used by the statements *)

(** [sub] after the lines [ls], starting from [z]: the additions happen in
    the order of the lines. *)
Definition sumFrom (z : Z) (ls : list LineItem) : Z :=
  fold_left (fun acc l => acc + l_total l) ls z.

Definition sumTotals (ls : list LineItem) : Z := sumFrom 0 ls.

(** A block that only appends the lines [ls] and adds their totals. *)
Definition appendsAs (f : Acc -> Acc) (ls : list LineItem) : Prop :=
  forall a, f a = mkAcc (lines a ++ ls) (sumFrom (sub a) ls).

(** The lines of each block, as lists. *)
Definition carpetLine (area : RATES.areaType) (state : tier -> Z) (k : tier)
    : list LineItem :=
  if state k =? 0 then []
  else [mkLine (label (RATES.carpets area k)) (state k)
          (price (RATES.carpets area k)) (state k * price (RATES.carpets area k))].

Definition carpetLines (area : RATES.areaType) (state : tier -> Z) : list LineItem :=
  flat_map (carpetLine area state) RATES.tierKeys.

Definition tileLines (s : Selection) : list LineItem :=
  if 0 <? Z.max 0 (tileTotalSqft s) then
    [mkLine "Tile and Grout Cleaning" (Z.max 0 (tileTotalSqft s)) RATES.tile_rate
       (Z.max 0 (tileTotalSqft s) * RATES.tile_rate)]
  else [].

Definition addOnLine (flag : bool) (lbl : string) (qty cap base pct : Z)
    : list LineItem :=
  if flag then
    [mkLine lbl qty (Z.min cap (Math_round_mul base pct))
       (Z.min cap (Math_round_mul base pct) * qty)]
  else [].

Definition sectionalLabel (cushions : Z) : string :=
  "Sectional - " +:+ string_of_Z cushions +:+ " cushions".

Definition sectionalLines (s : Selection) : list LineItem :=
  if 0 <? sectionalQty s then
    mkLine (sectionalLabel (sectionalCushions s)) (sectionalQty s) (sectionalBase s)
      (sectionalBase s * sectionalQty s)
    :: addOnLine (sectionalDeo s) "Sectional - Deodorizer" (sectionalQty s)
         deoCap (sectionalBase s) deoPct
    ++ addOnLine (sectionalProt s) "Sectional - Fabric Protector" (sectionalQty s)
         fabricCap (sectionalBase s) fabricPct
  else [].

Definition uphLine (s : Selection) (k : RATES.uphKey) : list LineItem :=
  if uphQty s k =? 0 then []
  else
    mkLine (label (RATES.upholstery k)) (uphQty s k) (price (RATES.upholstery k))
      (price (RATES.upholstery k) * uphQty s k)
    :: addOnLine (uphDeo s k) (label (RATES.upholstery k) +:+ " - Deodorizer")
         (uphQty s k) deoCap (price (RATES.upholstery k)) deoPct
    ++ addOnLine (uphProt s k) (label (RATES.upholstery k) +:+ " - Fabric Protector")
         (uphQty s k) fabricCap (price (RATES.upholstery k)) fabricPct.

Definition uphLines (s : Selection) : list LineItem := flat_map (uphLine s) uphKeys.

Definition rugLabel (size : RATES.rugSize) (pkg : tier) : string :=
  "Area Rug " +:+ RATES.rugs_label size +:+ " - " +:+ pkgName pkg.

Definition rugLine (s : Selection) (size : RATES.rugSize) (pkg : tier) : list LineItem :=
  if rugPackages s size pkg =? 0 then []
  else [mkLine (rugLabel size pkg) (rugPackages s size pkg) (RATES.rugs size pkg)
          (rugPackages s size pkg * RATES.rugs size pkg)].

Definition rugLines (s : Selection) : list LineItem :=
  flat_map (fun size => flat_map (rugLine s size) [standard; reset; deluxe]) rugSizes.

Definition pestMonthlyLines (s : Selection) : list LineItem :=
  if pestMonthly s then
    [mkLine "Monthly General Pest Control (AL only)" 1
       (price RATES.pest_monthly) (price RATES.pest_monthly)]
  else [].

Definition pestOneTimeLines (s : Selection) : list LineItem :=
  if pestOneTime s then
    [mkLine "One-Time General Pest Control (AL only)" 1
       (price RATES.pest_oneTime) (price RATES.pest_oneTime)]
  else [].

Definition fleaLines (s : Selection) : list LineItem :=
  if 0 <? pestHomeSqft s then
    if pestHomeSqft s <=? 1600 then
      [mkLine "Move-Out Flea and Tick (AL only)" 1 RATES.pest_flea1600 RATES.pest_flea1600]
    else if pestHomeSqft s <=? 3200 then
      [mkLine "Move-Out Flea and Tick (AL only)" 1 RATES.pest_flea3200 RATES.pest_flea3200]
    else []
  else [].

Definition zoneLines (s : Selection) : list LineItem :=
  if String.eqb (zone s) "extended" then [mkLine "Service Zone Fee" 1 (usd 45) (usd 45)]
  else [].

Definition rawLines (s : Selection) : list LineItem :=
  carpetLines RATES.rooms (carpetRooms s)
  ++ carpetLines RATES.stairs (carpetStairs s)
  ++ carpetLines RATES.downHall (downHall s)
  ++ carpetLines RATES.upLanding (upLanding s)
  ++ carpetLines RATES.walkIn (walkIn s)
  ++ tileLines s
  ++ sectionalLines s
  ++ uphLines s
  ++ rugLines s
  ++ pestMonthlyLines s
  ++ pestOneTimeLines s
  ++ fleaLines s
  ++ zoneLines s.

Definition adjustmentLabel : string := "Minimum Charge Adjustment".

Definition isAdjustment (l : LineItem) : bool := String.eqb (l_label l) adjustmentLabel.

(** ** The traversal order of the labels *)

Definition areaOrder : list RATES.areaType :=
  [ RATES.rooms; RATES.stairs; RATES.downHall; RATES.upLanding; RATES.walkIn ].

Definition packageOrder : list tier := [standard; reset; deluxe].

Definition carpetLabels (area : RATES.areaType) : list string :=
  flat_map (fun k => [label (RATES.carpets area k)]) packageOrder.

Definition uphLabels (k : RATES.uphKey) : list string :=
  [ label (RATES.upholstery k);
    label (RATES.upholstery k) +:+ " - Deodorizer";
    label (RATES.upholstery k) +:+ " - Fabric Protector" ].

Definition rugLabels (size : RATES.rugSize) : list string :=
  flat_map (fun pkg => [rugLabel size pkg]) packageOrder.

(** Every label a quote can show before the adjustment, in the order carpet
    rooms, stairs, downstairs hallway, upstairs landing, walk-in closet, tile,
    sectional and its add-ons, the other upholstery items each with its
    add-ons, rugs by size and package, pest control, zone fee.  The label of
    the sectional line is the only one that depends on the selection. *)
Definition labelsBefore : list string :=
  flat_map carpetLabels areaOrder ++ ["Tile and Grout Cleaning"].

Definition labelsAfter : list string :=
  ["Sectional - Deodorizer"; "Sectional - Fabric Protector"]
  ++ flat_map uphLabels uphKeys
  ++ flat_map rugLabels rugSizes
  ++ [ "Monthly General Pest Control (AL only)";
       "One-Time General Pest Control (AL only)";
       "Move-Out Flea and Tick (AL only)" ]
  ++ ["Service Zone Fee"].

Definition rawOrder (cushions : Z) : list string :=
  labelsBefore ++ sectionalLabel cushions :: labelsAfter.

Definition canonicalOrder (cushions : Z) : list string :=
  rawOrder cushions ++ [adjustmentLabel].

(** ** Predicates on selections *)

(** The state variable of a carpet area. *)
Definition carpetState (s : Selection) (area : RATES.areaType) : tier -> Z :=
  match area with
  | RATES.rooms => carpetRooms s
  | RATES.stairs => carpetStairs s
  | RATES.downHall => downHall s
  | RATES.upLanding => upLanding s
  | RATES.walkIn => walkIn s
  end.

(** No carpet quantity is selected. *)
Definition carpetsOff (s : Selection) : Prop :=
  forall area k, carpetState s area k = 0.

(** Nothing but carpet is selected: every other quantity is 0 and every flag
    and toggle is off. *)
Definition othersOff (s : Selection) : Prop :=
  tileTotalSqft s = 0
  /\ (forall k, uphQty s k = 0)
  /\ (forall k, uphDeo s k = false)
  /\ (forall k, uphProt s k = false)
  /\ sectionalQty s = 0
  /\ sectionalDeo s = false
  /\ sectionalProt s = false
  /\ (forall size pkg, rugPackages s size pkg = 0)
  /\ pestMonthly s = false
  /\ pestOneTime s = false
  /\ pestHomeSqft s = 0.

#[global] Instance tier_eq_dec : EqDecision tier.
Proof. solve_decision. Defined.

#[global] Instance areaType_eq_dec : EqDecision RATES.areaType.
Proof. solve_decision. Defined.

(** Exactly the carpet pair [(area, k)] has a quantity, [q]. *)
Definition onlyCarpet (s : Selection) (area : RATES.areaType) (k : tier) (q : Z) : Prop :=
  (forall area' k',
     carpetState s area' k' =
     if decide (area' = area /\ k' = k) then q else 0)
  /\ othersOff s.

(** Every numeric input is non-negative. *)
Definition nonNegative (s : Selection) : Prop :=
  (forall area k, 0 <= carpetState s area k)
  /\ 0 <= tileTotalSqft s
  /\ (forall k, 0 <= uphQty s k)
  /\ 0 <= sectionalCushions s
  /\ 0 <= sectionalQty s
  /\ (forall size pkg, 0 <= rugPackages s size pkg)
  /\ 0 <= pestHomeSqft s.

(** The line total is the quantity times the unit price. *)
Definition lineOK (l : LineItem) : Prop := l_total l = l_qty l * l_each l.

(** Selections used as examples. *)
Definition withZone (z : string) (s : Selection) : Selection :=
  mkSelection (carpetRooms s) (carpetStairs s) (downHall s) (upLanding s) (walkIn s)
    (tileTotalSqft s) (uphQty s) (uphDeo s) (uphProt s)
    (sectionalCushions s) (sectionalQty s) (sectionalDeo s) (sectionalProt s)
    (rugPackages s) (pestMonthly s) (pestOneTime s) (pestHomeSqft s) z.

Definition withPestHomeSqft (n : Z) (s : Selection) : Selection :=
  mkSelection (carpetRooms s) (carpetStairs s) (downHall s) (upLanding s) (walkIn s)
    (tileTotalSqft s) (uphQty s) (uphDeo s) (uphProt s)
    (sectionalCushions s) (sectionalQty s) (sectionalDeo s) (sectionalProt s)
    (rugPackages s) (pestMonthly s) (pestOneTime s) n (zone s).

Definition withCarpetRooms (q : tier -> Z) (s : Selection) : Selection :=
  mkSelection q (carpetStairs s) (downHall s) (upLanding s) (walkIn s)
    (tileTotalSqft s) (uphQty s) (uphDeo s) (uphProt s)
    (sectionalCushions s) (sectionalQty s) (sectionalDeo s) (sectionalProt s)
    (rugPackages s) (pestMonthly s) (pestOneTime s) (pestHomeSqft s) (zone s).

Definition withSectional (cushions qty : Z) (deo prot : bool) (s : Selection) : Selection :=
  mkSelection (carpetRooms s) (carpetStairs s) (downHall s) (upLanding s) (walkIn s)
    (tileTotalSqft s) (uphQty s) (uphDeo s) (uphProt s)
    cushions qty deo prot
    (rugPackages s) (pestMonthly s) (pestOneTime s) (pestHomeSqft s) (zone s).

Definition withUph (qty : RATES.uphKey -> Z) (deo prot : RATES.uphKey -> bool)
    (s : Selection) : Selection :=
  mkSelection (carpetRooms s) (carpetStairs s) (downHall s) (upLanding s) (walkIn s)
    (tileTotalSqft s) qty deo prot
    (sectionalCushions s) (sectionalQty s) (sectionalDeo s) (sectionalProt s)
    (rugPackages s) (pestMonthly s) (pestOneTime s) (pestHomeSqft s) (zone s).

(** One standard room, nothing else. *)
Definition oneRoom : Selection :=
  withCarpetRooms (fun k => match k with standard => 1 | _ => 0 end) initialSelection.

(** Three twin mattresses with the deodorizer, nothing else. *)
Definition threeTwins : Selection :=
  withUph (fun k => match k with RATES.mattressTwin => 3 | _ => 0 end)
    (fun k => match k with RATES.mattressTwin => true | _ => false end)
    (fun _ => false) initialSelection.

(** Two sectionals of 13 cushions with both add-ons, nothing else. *)
Definition bigSectional : Selection := withSectional 13 2 true true initialSelection.

(** A home of 5000 square feet for the flea and tick treatment, nothing else. *)
Definition largeHome : Selection := withPestHomeSqft 5000 initialSelection.

Definition withTile (n : Z) (s : Selection) : Selection :=
  mkSelection (carpetRooms s) (carpetStairs s) (downHall s) (upLanding s) (walkIn s)
    n (uphQty s) (uphDeo s) (uphProt s)
    (sectionalCushions s) (sectionalQty s) (sectionalDeo s) (sectionalProt s)
    (rugPackages s) (pestMonthly s) (pestOneTime s) (pestHomeSqft s) (zone s).

Definition withRugs (q : RATES.rugSize -> tier -> Z) (s : Selection) : Selection :=
  mkSelection (carpetRooms s) (carpetStairs s) (downHall s) (upLanding s) (walkIn s)
    (tileTotalSqft s) (uphQty s) (uphDeo s) (uphProt s)
    (sectionalCushions s) (sectionalQty s) (sectionalDeo s) (sectionalProt s)
    q (pestMonthly s) (pestOneTime s) (pestHomeSqft s) (zone s).

Definition withPest (monthly oneTime : bool) (s : Selection) : Selection :=
  mkSelection (carpetRooms s) (carpetStairs s) (downHall s) (upLanding s) (walkIn s)
    (tileTotalSqft s) (uphQty s) (uphDeo s) (uphProt s)
    (sectionalCushions s) (sectionalQty s) (sectionalDeo s) (sectionalProt s)
    (rugPackages s) monthly oneTime (pestHomeSqft s) (zone s).

(** Two large rugs with the reset package, nothing else. *)
Definition twoLargeRugs : Selection :=
  withRugs (fun size pkg =>
              match size, pkg with RATES.large, reset => 2 | _, _ => 0 end)
    initialSelection.

(** Both general pest control services and 301 square feet of tile. *)
Definition pestAndTile : Selection := withTile 301 (withPest true true initialSelection).

(** ** The subtotal as a sum *)

Definition sumOver {K} (keys : list K) (f : K -> Z) : Z :=
  fold_right (fun k acc => f k + acc) 0 keys.

(** What an add-on adds to the price of one unit. *)
Definition addOnAmount (flag : bool) (cap base pct : Z) : Z :=
  if flag then Z.min cap (Math_round_mul base pct) else 0.

(** The flea and tick price of a home. *)
Definition fleaPrice (sqft : Z) : Z :=
  if 0 <? sqft then
    if sqft <=? 1600 then usd 149 else if sqft <=? 3200 then usd 300 else 0
  else 0.

(** Quantity times unit price over every item, with no guard on the
    quantities of the carpet, upholstery and rug items. *)
Definition subtotalFormula (s : Selection) : Z :=
  sumOver areaOrder (fun area =>
    sumOver packageOrder (fun k =>
      carpetState s area k * price (RATES.carpets area k)))
  + Z.max 0 (tileTotalSqft s) * 50
  + Z.max 0 (sectionalQty s)
    * (default 0 (RATES.sectionalPrices !! sectionalCushions s)
       + addOnAmount (sectionalDeo s) (usd 20)
           (default 0 (RATES.sectionalPrices !! sectionalCushions s)) 15
       + addOnAmount (sectionalProt s) (usd 50)
           (default 0 (RATES.sectionalPrices !! sectionalCushions s)) 20)
  + sumOver uphKeys (fun k =>
      uphQty s k
      * (price (RATES.upholstery k)
         + addOnAmount (uphDeo s k) (usd 20) (price (RATES.upholstery k)) 15
         + addOnAmount (uphProt s k) (usd 50) (price (RATES.upholstery k)) 20))
  + sumOver rugSizes (fun size =>
      sumOver packageOrder (fun pkg => rugPackages s size pkg * RATES.rugs size pkg))
  + (if pestMonthly s then 4999 else 0)
  + (if pestOneTime s then 12999 else 0)
  + fleaPrice (pestHomeSqft s)
  + (if String.eqb (zone s) "extended" then usd 45 else 0).

(** [s2] selects at least what [s1] selects: no quantity is lower, no flag
    or toggle is cleared, the extended zone is kept, and the cushion count and
    the home square footage are the same. *)
Definition addsTo (s1 s2 : Selection) : Prop :=
  (forall area k, carpetState s1 area k <= carpetState s2 area k)
  /\ tileTotalSqft s1 <= tileTotalSqft s2
  /\ (forall k, uphQty s1 k <= uphQty s2 k)
  /\ (forall k, uphDeo s1 k = true -> uphDeo s2 k = true)
  /\ (forall k, uphProt s1 k = true -> uphProt s2 k = true)
  /\ sectionalCushions s1 = sectionalCushions s2
  /\ sectionalQty s1 <= sectionalQty s2
  /\ (sectionalDeo s1 = true -> sectionalDeo s2 = true)
  /\ (sectionalProt s1 = true -> sectionalProt s2 = true)
  /\ (forall size pkg, rugPackages s1 size pkg <= rugPackages s2 size pkg)
  /\ (pestMonthly s1 = true -> pestMonthly s2 = true)
  /\ (pestOneTime s1 = true -> pestOneTime s2 = true)
  /\ pestHomeSqft s1 = pestHomeSqft s2
  /\ (zone s1 = "extended" -> zone s2 = "extended").

(** One room, and on top of it three twin mattresses with the deodorizer. *)
Definition roomAndTwins : Selection :=
  withCarpetRooms (fun k => match k with standard => 1 | _ => 0 end) threeTwins.

(** No upholstery quantity, but every add-on flag set, and a sectional
    quantity of 0 with both flags set. *)
Definition flagsOnly : Selection :=
  withSectional 7 0 true true
    (withUph (fun _ => 0) (fun _ => true) (fun _ => true) initialSelection).

(** ** The quote text *)

(** [x.toFixed(2)] for an amount [c] of hundredths: a minus sign when
    negative, the integer part, a point and the two digits of the
    hundredths. *)
Definition toFixed2 (c : Z) : string :=
  (if c <? 0 then "-" else "")
  +:+ string_of_Z (Z.abs c / 100)
  +:+ "."
  +:+ string_of_Z (Z.abs c mod 100 / 10)
  +:+ string_of_Z (Z.abs c mod 100 mod 10).

(** [fmt(n)]: ["$" + (Math.round(n * 100) / 100).toFixed(2)]; an amount is
    already a whole number of hundredths. *)
Definition fmt (c : Z) : string := "$" +:+ toFixed2 c.

(** The line feed, and a line break as a string. *)
Definition nlChar : Ascii.ascii := Ascii.ascii_of_nat 10.
Definition nl : string := String nlChar EmptyString.

(** The text of one line in [buildQuoteText]: [each] is always defined on
    the lines of the engine. *)
Definition lineText (l : LineItem) : string :=
  let eachStr := " x " +:+ fmt (l_each l) in
  l_label l +:+ " - " +:+ string_of_Z (l_qty l) +:+ eachStr +:+ " = " +:+ fmt (l_total l).

Definition buildQuoteText (summary : QuoteSummary)
    (customerName customerPhone customerEmail address zip : string) : string :=
  let lines := String.concat nl (map lineText (q_lines summary)) in
  let contactInfo :=
    nl +:+ nl +:+ "CUSTOMER INFORMATION:" +:+ nl +:+ "Name: " +:+ customerName
    +:+ nl +:+ "Phone: " +:+ customerPhone +:+ nl +:+ "Email: " +:+ customerEmail
    +:+ nl +:+ "Address: " +:+ address +:+ ", " +:+ zip in
  "Jet Stream Clean - Quote" +:+ nl +:+ lines +:+ nl +:+ "TOTAL: "
  +:+ fmt (q_total summary) +:+ contactInfo
  +:+ nl +:+ nl +:+ "This quote is an estimate. Minimum charge $135 applies.".

(** [text.split("\n")]. *)
Fixpoint splitLines (s : string) : list string :=
  match s with
  | EmptyString => [EmptyString]
  | String a rest =>
      if Ascii.eqb a nlChar then EmptyString :: splitLines rest
      else
        match splitLines rest with
        | [] => [String a EmptyString]
        | first :: others => String a first :: others
        end
  end.

Fixpoint noNewline (s : string) : bool :=
  match s with
  | EmptyString => true
  | String a rest => negb (Ascii.eqb a nlChar) && noNewline rest
  end.



(** ** The handlers of the form *)

#[global] Instance uphKey_eq_dec : EqDecision RATES.uphKey.
Proof. solve_decision. Defined.

#[global] Instance rugSize_eq_dec : EqDecision RATES.rugSize.
Proof. solve_decision. Defined.

(** [{ ...p, [k]: v }] *)
Definition setKey {K V} `{EqDecision K} (p : K -> V) (k : K) (v : V) : K -> V :=
  fun k' => if decide (k' = k) then v else p k'.

Definition withCarpetState (area : RATES.areaType) (q : tier -> Z) (s : Selection)
    : Selection :=
  match area with
  | RATES.rooms =>
      mkSelection q (carpetStairs s) (downHall s) (upLanding s) (walkIn s)
        (tileTotalSqft s) (uphQty s) (uphDeo s) (uphProt s)
        (sectionalCushions s) (sectionalQty s) (sectionalDeo s) (sectionalProt s)
        (rugPackages s) (pestMonthly s) (pestOneTime s) (pestHomeSqft s) (zone s)
  | RATES.stairs =>
      mkSelection (carpetRooms s) q (downHall s) (upLanding s) (walkIn s)
        (tileTotalSqft s) (uphQty s) (uphDeo s) (uphProt s)
        (sectionalCushions s) (sectionalQty s) (sectionalDeo s) (sectionalProt s)
        (rugPackages s) (pestMonthly s) (pestOneTime s) (pestHomeSqft s) (zone s)
  | RATES.downHall =>
      mkSelection (carpetRooms s) (carpetStairs s) q (upLanding s) (walkIn s)
        (tileTotalSqft s) (uphQty s) (uphDeo s) (uphProt s)
        (sectionalCushions s) (sectionalQty s) (sectionalDeo s) (sectionalProt s)
        (rugPackages s) (pestMonthly s) (pestOneTime s) (pestHomeSqft s) (zone s)
  | RATES.upLanding =>
      mkSelection (carpetRooms s) (carpetStairs s) (downHall s) q (walkIn s)
        (tileTotalSqft s) (uphQty s) (uphDeo s) (uphProt s)
        (sectionalCushions s) (sectionalQty s) (sectionalDeo s) (sectionalProt s)
        (rugPackages s) (pestMonthly s) (pestOneTime s) (pestHomeSqft s) (zone s)
  | RATES.walkIn =>
      mkSelection (carpetRooms s) (carpetStairs s) (downHall s) (upLanding s) q
        (tileTotalSqft s) (uphQty s) (uphDeo s) (uphProt s)
        (sectionalCushions s) (sectionalQty s) (sectionalDeo s) (sectionalProt s)
        (rugPackages s) (pestMonthly s) (pestOneTime s) (pestHomeSqft s) (zone s)
  end.

(** The state of the component that the handlers below read or write: the
    selection and the two selectors that say which carpet area and which rug
    size the quantity controls act on.  The step, the [active] toggles, the
    rug material, the contact fields and [copied] do not reach the engine. *)
Record AppState := mkApp {
  selection : Selection;
  selectedCarpetType : RATES.areaType;
  selectedRugSize : RATES.rugSize
}.

Definition initialApp : AppState := mkApp initialSelection RATES.rooms RATES.small.

(** The events of the form.  A number field delivers the result of
    [parseInt(e.target.value || dflt, 10)]: an integer, or [None] for [NaN].
    The form has the upholstery controls for the keys of [uphKeys]; the events
    here exist for every key. *)
Inductive Event :=
| ZoneLocal
| ZoneExtended
| CarpetType (area : RATES.areaType)
| CarpetMinus (k : tier)
| CarpetInput (k : tier) (v : option Z)
| CarpetPlus (k : tier)
| TileInput (v : option Z)
| CushionsInput (v : option Z)
| SectionalMinus
| SectionalInput (v : option Z)
| SectionalPlus
| SectionalDeoCheck (b : bool)
| SectionalProtCheck (b : bool)
| UphMinus (k : RATES.uphKey)
| UphInput (k : RATES.uphKey) (v : option Z)
| UphPlus (k : RATES.uphKey)
| UphDeoCheck (k : RATES.uphKey) (b : bool)
| UphProtCheck (k : RATES.uphKey) (b : bool)
| RugSize (size : RATES.rugSize)
| RugMinus (pkg : tier)
| RugInput (pkg : tier) (v : option Z)
| RugPlus (pkg : tier)
| PestMonthlyCheck (b : bool)
| PestOneTimeCheck (b : bool)
| PestHomeSqftInput (v : option Z).

Definition onSelection (st : AppState) (s : Selection) : AppState :=
  mkApp s (selectedCarpetType st) (selectedRugSize st).

(** The handler of each event.  [Math.max] and [Math.min] give [NaN] on
    [NaN]; a selection holds integers only, so the handler has no result
    ([None]) where it would store [NaN]. *)
Definition handle (st : AppState) (e : Event) : option AppState :=
  let s := selection st in
  match e with
  | ZoneLocal => Some (onSelection st (withZone "local" s))
  | ZoneExtended => Some (onSelection st (withZone "extended" s))
  | CarpetType area => Some (mkApp s area (selectedRugSize st))
  | CarpetMinus k =>
      let p := carpetState s (selectedCarpetType st) in
      Some (onSelection st
              (withCarpetState (selectedCarpetType st) (setKey p k (Z.max 0 (p k - 1))) s))
  | CarpetInput k v =>
      let p := carpetState s (selectedCarpetType st) in
      n ← v;
      Some (onSelection st
              (withCarpetState (selectedCarpetType st) (setKey p k (Z.max 0 n)) s))
  | CarpetPlus k =>
      let p := carpetState s (selectedCarpetType st) in
      Some (onSelection st
              (withCarpetState (selectedCarpetType st) (setKey p k (p k + 1)) s))
  | TileInput v => n ← v; Some (onSelection st (withTile (Z.max 0 n) s))
  | CushionsInput v =>
      n ← v;
      Some (onSelection st
              (withSectional (Z.max 4 (Z.min 12 n)) (sectionalQty s)
                 (sectionalDeo s) (sectionalProt s) s))
  | SectionalMinus =>
      Some (onSelection st
              (withSectional (sectionalCushions s) (Z.max 0 (sectionalQty s - 1))
                 (sectionalDeo s) (sectionalProt s) s))
  | SectionalInput v =>
      n ← v;
      Some (onSelection st
              (withSectional (sectionalCushions s) (Z.max 0 n)
                 (sectionalDeo s) (sectionalProt s) s))
  | SectionalPlus =>
      Some (onSelection st
              (withSectional (sectionalCushions s) (sectionalQty s + 1)
                 (sectionalDeo s) (sectionalProt s) s))
  | SectionalDeoCheck b =>
      Some (onSelection st
              (withSectional (sectionalCushions s) (sectionalQty s) b (sectionalProt s) s))
  | SectionalProtCheck b =>
      Some (onSelection st
              (withSectional (sectionalCushions s) (sectionalQty s) (sectionalDeo s) b s))
  | UphMinus k =>
      Some (onSelection st
              (withUph (setKey (uphQty s) k (Z.max 0 (uphQty s k - 1)))
                 (uphDeo s) (uphProt s) s))
  | UphInput k v =>
      n ← v;
      Some (onSelection st
              (withUph (setKey (uphQty s) k (Z.max 0 n)) (uphDeo s) (uphProt s) s))
  | UphPlus k =>
      Some (onSelection st
              (withUph (setKey (uphQty s) k (uphQty s k + 1)) (uphDeo s) (uphProt s) s))
  | UphDeoCheck k b =>
      Some (onSelection st (withUph (uphQty s) (setKey (uphDeo s) k b) (uphProt s) s))
  | UphProtCheck k b =>
      Some (onSelection st (withUph (uphQty s) (uphDeo s) (setKey (uphProt s) k b) s))
  | RugSize size => Some (mkApp s (selectedCarpetType st) size)
  | RugMinus pkg =>
      let p := rugPackages s (selectedRugSize st) in
      Some (onSelection st
              (withRugs (setKey (rugPackages s) (selectedRugSize st)
                           (setKey p pkg (Z.max 0 (p pkg - 1)))) s))
  | RugInput pkg v =>
      let p := rugPackages s (selectedRugSize st) in
      n ← v;
      Some (onSelection st
              (withRugs (setKey (rugPackages s) (selectedRugSize st)
                           (setKey p pkg (Z.max 0 n))) s))
  | RugPlus pkg =>
      let p := rugPackages s (selectedRugSize st) in
      Some (onSelection st
              (withRugs (setKey (rugPackages s) (selectedRugSize st)
                           (setKey p pkg (p pkg + 1))) s))
  | PestMonthlyCheck b => Some (onSelection st (withPest b (pestOneTime s) s))
  | PestOneTimeCheck b => Some (onSelection st (withPest (pestMonthly s) b s))
  | PestHomeSqftInput v => n ← v; Some (onSelection st (withPestHomeSqft (Z.max 0 n) s))
  end.

(** The states the form can be in: the initial one and those a handler
    leads to. *)
Inductive reachable : AppState -> Prop :=
| reachable_init : reachable initialApp
| reachable_step st e st' :
    reachable st -> handle st e = Some st' -> reachable st'.

(** What the handlers maintain. *)
Definition wellFormed (s : Selection) : Prop :=
  nonNegative s
  /\ 4 <= sectionalCushions s <= 12
  /\ (zone s = "local" \/ zone s = "extended").

(** The form after the events: room counter plus, cushion field 20,
    sectional counter plus, sectional deodorizer checked. *)
Definition afterFourEvents : option AppState :=
  st1 ← handle initialApp (CarpetPlus standard);
  st2 ← handle st1 (CushionsInput (Some 20));
  st3 ← handle st2 SectionalPlus;
  handle st3 (SectionalDeoCheck true).

Definition formExample : AppState := default initialApp afterFourEvents.

(** Quantity, unit price and total are positive. *)
Definition linePositive (l : LineItem) : Prop :=
  0 < l_qty l /\ 0 < l_each l /\ 0 < l_total l.






(** ** Accumulator lemmas *)

Lemma sumFrom_app z l1 l2 : sumFrom z (l1 ++ l2) = sumFrom (sumFrom z l1) l2.
Proof. unfold sumFrom. apply fold_left_app. Qed.

Lemma sumFrom_shift z ls : sumFrom z ls = z + sumTotals ls.
Proof.
  unfold sumTotals. revert z.
  induction ls as [|l ls IH]; intros z; simpl.
  - lia.
  - rewrite (IH (z + l_total l)), (IH (0 + l_total l)). lia.
Qed.

Lemma sumTotals_app l1 l2 : sumTotals (l1 ++ l2) = sumTotals l1 + sumTotals l2.
Proof. unfold sumTotals. rewrite sumFrom_app. apply sumFrom_shift. Qed.

Lemma sumTotals_cons l ls : sumTotals (l :: ls) = l_total l + sumTotals ls.
Proof. change (l :: ls) with ([l] ++ ls). rewrite sumTotals_app. reflexivity. Qed.

Lemma appendsAs_skip : appendsAs (fun a => a) [].
Proof. intros [ls z]. simpl. by rewrite app_nil_r. Qed.

Lemma appendsAs_push_add l :
  appendsAs (fun a => push l (addSub (l_total l) a)) [l].
Proof. intros [ls z]. reflexivity. Qed.

Lemma appendsAs_add_push l :
  appendsAs (fun a => addSub (l_total l) (push l a)) [l].
Proof. intros [ls z]. reflexivity. Qed.

Lemma appendsAs_seq f g l1 l2 :
  appendsAs f l1 -> appendsAs g l2 -> appendsAs (fun a => g (f a)) (l1 ++ l2).
Proof.
  intros Hf Hg a. rewrite Hf, Hg. simpl.
  by rewrite sumFrom_app, app_assoc.
Qed.

Lemma appendsAs_forEach {K} (keys : list K) body (view : K -> list LineItem) :
  (forall k, appendsAs (body k) (view k)) ->
  appendsAs (forEach keys body) (flat_map view keys).
Proof.
  intros Hbody. unfold forEach.
  induction keys as [|k keys IH]; simpl.
  - apply appendsAs_skip.
  - apply (appendsAs_seq (body k) _ _ _ (Hbody k) IH).
Qed.

(** ** Each block appends its lines *)

Ltac appends_by_cases :=
  intros [ls z]; unfold push, addSub, addOnLine, sumFrom;
  cbn [lines sub fold_left l_total app];
  rewrite ?app_nil_r, <- ?app_assoc; reflexivity.

Lemma carpetBlock_appends area state :
  appendsAs (carpetBlock area state) (carpetLines area state).
Proof.
  apply appendsAs_forEach. intros k.
  unfold carpetBody, carpetLine.
  destruct (state k =? 0); appends_by_cases.
Qed.

Lemma tileBlock_appends s : appendsAs (tileBlock s) (tileLines s).
Proof.
  unfold tileBlock, tileLines.
  destruct (0 <? Z.max 0 (tileTotalSqft s)); appends_by_cases.
Qed.

Lemma sectionalBlock_appends s : appendsAs (sectionalBlock s) (sectionalLines s).
Proof.
  unfold sectionalBlock, sectionalLines, sectionalLabel.
  destruct (0 <? sectionalQty s), (sectionalDeo s), (sectionalProt s);
    appends_by_cases.
Qed.

Lemma uphBlock_appends s : appendsAs (uphBlock s) (uphLines s).
Proof.
  apply appendsAs_forEach. intros k.
  unfold uphBody, uphLine.
  destruct (uphQty s k =? 0), (uphDeo s k), (uphProt s k); appends_by_cases.
Qed.

Lemma rugBlock_appends s : appendsAs (rugBlock s) (rugLines s).
Proof.
  apply appendsAs_forEach. intros size.
  apply appendsAs_forEach. intros pkg.
  unfold rugBody, rugLine, rugLabel.
  destruct (rugPackages s size pkg =? 0); appends_by_cases.
Qed.

Lemma pestMonthlyBlock_appends s :
  appendsAs (pestMonthlyBlock s) (pestMonthlyLines s).
Proof.
  unfold pestMonthlyBlock, pestMonthlyLines.
  destruct (pestMonthly s); appends_by_cases.
Qed.

Lemma pestOneTimeBlock_appends s :
  appendsAs (pestOneTimeBlock s) (pestOneTimeLines s).
Proof.
  unfold pestOneTimeBlock, pestOneTimeLines.
  destruct (pestOneTime s); appends_by_cases.
Qed.

Lemma fleaBlock_appends s : appendsAs (fleaBlock s) (fleaLines s).
Proof.
  unfold fleaBlock, fleaLines, fleaLabelPrice.
  destruct (0 <? pestHomeSqft s), (pestHomeSqft s <=? 1600),
    (pestHomeSqft s <=? 3200); appends_by_cases.
Qed.

Lemma zoneBlock_appends s : appendsAs (zoneBlock s) (zoneLines s).
Proof.
  unfold zoneBlock, zoneLines, zoneFee.
  destruct (String.eqb (zone s) "extended"); appends_by_cases.
Qed.

(** The accumulator before the minimum charge step holds the lines of the
    blocks, in the order of the blocks, and the sum of their totals. *)
Lemma rawQuote_eq s : rawQuote s = mkAcc (rawLines s) (sumTotals (rawLines s)).
Proof.
  unfold rawQuote, rawLines, sumTotals.
  pose proof (carpetBlock_appends RATES.rooms (carpetRooms s)) as H1.
  pose proof (appendsAs_seq _ _ _ _ H1 (carpetBlock_appends RATES.stairs (carpetStairs s))) as H2.
  pose proof (appendsAs_seq _ _ _ _ H2 (carpetBlock_appends RATES.downHall (downHall s))) as H3.
  pose proof (appendsAs_seq _ _ _ _ H3 (carpetBlock_appends RATES.upLanding (upLanding s))) as H4.
  pose proof (appendsAs_seq _ _ _ _ H4 (carpetBlock_appends RATES.walkIn (walkIn s))) as H5.
  pose proof (appendsAs_seq _ _ _ _ H5 (tileBlock_appends s)) as H6.
  pose proof (appendsAs_seq _ _ _ _ H6 (sectionalBlock_appends s)) as H7.
  pose proof (appendsAs_seq _ _ _ _ H7 (uphBlock_appends s)) as H8.
  pose proof (appendsAs_seq _ _ _ _ H8 (rugBlock_appends s)) as H9.
  pose proof (appendsAs_seq _ _ _ _ H9 (pestMonthlyBlock_appends s)) as H10.
  pose proof (appendsAs_seq _ _ _ _ H10 (pestOneTimeBlock_appends s)) as H11.
  pose proof (appendsAs_seq _ _ _ _ H11 (fleaBlock_appends s)) as H12.
  pose proof (appendsAs_seq _ _ _ _ H12 (zoneBlock_appends s)) as H13.
  rewrite (H13 (mkAcc [] 0)). simpl lines. simpl sub.
  rewrite app_nil_l, <- !app_assoc. reflexivity.
Qed.

(** The summary in terms of the lines before the adjustment. *)
Lemma computeQuote_eq s :
  computeQuote s =
  if (sumTotals (rawLines s) <? RATES.minCharge) && (0 <? sumTotals (rawLines s)) then
    mkSummary
      (rawLines s ++ [mkLine adjustmentLabel 1 (RATES.minCharge - sumTotals (rawLines s))
                        (RATES.minCharge - sumTotals (rawLines s))])
      (sumTotals (rawLines s) + (RATES.minCharge - sumTotals (rawLines s)))
      (sumTotals (rawLines s) + (RATES.minCharge - sumTotals (rawLines s)))
  else mkSummary (rawLines s) (sumTotals (rawLines s)) (sumTotals (rawLines s)).
Proof.
  unfold computeQuote, minChargeBlock. rewrite rawQuote_eq. cbn [sub lines].
  destruct ((sumTotals (rawLines s) <? RATES.minCharge) && (0 <? sumTotals (rawLines s)));
    reflexivity.
Qed.

(** ** Labels *)

Lemma sublist_flat_map {K} (f : K -> list LineItem) (g : K -> list string) ks :
  (forall k, map l_label (f k) `sublist_of` g k) ->
  map l_label (flat_map f ks) `sublist_of` flat_map g ks.
Proof.
  intros Hk. induction ks as [|k ks IH]; simpl.
  - constructor.
  - rewrite map_app. by apply sublist_app.
Qed.

Ltac sublist_greedy :=
  repeat first [ apply sublist_nil_l | apply sublist_skip | apply sublist_cons ].

Lemma carpetLines_order area state :
  map l_label (carpetLines area state) `sublist_of` carpetLabels area.
Proof.
  apply sublist_flat_map. intros k. unfold carpetLine.
  destruct (state k =? 0); sublist_greedy.
Qed.

Lemma sectionalLines_order s :
  map l_label (sectionalLines s) `sublist_of`
    [sectionalLabel (sectionalCushions s); "Sectional - Deodorizer";
     "Sectional - Fabric Protector"].
Proof.
  unfold sectionalLines, addOnLine.
  destruct (0 <? sectionalQty s), (sectionalDeo s), (sectionalProt s);
    cbn [map app l_label]; sublist_greedy.
Qed.

Lemma uphLines_order s : map l_label (uphLines s) `sublist_of` flat_map uphLabels uphKeys.
Proof.
  apply sublist_flat_map. intros k. unfold uphLine, addOnLine, uphLabels.
  destruct (uphQty s k =? 0), (uphDeo s k), (uphProt s k);
    cbn [map app l_label]; sublist_greedy.
Qed.

Lemma rugLines_order s : map l_label (rugLines s) `sublist_of` flat_map rugLabels rugSizes.
Proof.
  apply sublist_flat_map. intros size.
  apply sublist_flat_map. intros pkg. unfold rugLine.
  destruct (rugPackages s size pkg =? 0); sublist_greedy.
Qed.

Lemma pestLines_order s :
  map l_label (pestMonthlyLines s ++ pestOneTimeLines s ++ fleaLines s) `sublist_of`
    [ "Monthly General Pest Control (AL only)";
      "One-Time General Pest Control (AL only)";
      "Move-Out Flea and Tick (AL only)" ].
Proof.
  unfold pestMonthlyLines, pestOneTimeLines, fleaLines.
  destruct (pestMonthly s), (pestOneTime s), (0 <? pestHomeSqft s),
    (pestHomeSqft s <=? 1600), (pestHomeSqft s <=? 3200);
    cbn [map app l_label]; sublist_greedy.
Qed.

Lemma zoneLines_order s : map l_label (zoneLines s) `sublist_of` ["Service Zone Fee"].
Proof.
  unfold zoneLines. destruct (String.eqb (zone s) "extended"); sublist_greedy.
Qed.

Lemma tileLines_order s : map l_label (tileLines s) `sublist_of` ["Tile and Grout Cleaning"].
Proof.
  unfold tileLines. destruct (0 <? Z.max 0 (tileTotalSqft s)); sublist_greedy.
Qed.

Lemma rawLines_order s :
  map l_label (rawLines s) `sublist_of` rawOrder (sectionalCushions s).
Proof.
  unfold rawLines, rawOrder, labelsBefore, labelsAfter, areaOrder. cbn [flat_map].
  rewrite !map_app, app_nil_r, <- !app_assoc.
  repeat (apply sublist_app; [apply carpetLines_order|]).
  apply sublist_app; [apply tileLines_order|].
  apply (sublist_app _ [_; _; _]); [apply sectionalLines_order|].
  apply sublist_app; [apply uphLines_order|].
  apply sublist_app; [apply rugLines_order|].
  rewrite <- !map_app, !app_assoc, map_app.
  apply sublist_app; [|apply zoneLines_order].
  rewrite <- !app_assoc. apply pestLines_order.
Qed.

(** [String(n)] starts with a digit or a minus sign. *)
Lemma string_of_Z_head c :
  exists ch rest, string_of_Z c = String ch rest /\
    (Ascii.nat_of_ascii ch = 45 \/ 48 <= Ascii.nat_of_ascii ch <= 57)%nat.
Proof.
  unfold string_of_Z.
  destruct c as [|p|p]; cbn [Z.to_int NilZero.string_of_int].
  - eexists _, _. split; [reflexivity|]. vm_compute. lia.
  - unfold NilZero.string_of_uint.
    destruct (Pos.to_uint p); cbn [NilEmpty.string_of_uint];
      eexists _, _; (split; [reflexivity|]); vm_compute; lia.
  - eexists _, _. split; [reflexivity|]. vm_compute. lia.
Qed.

Lemma sectionalLabel_fresh c :
  sectionalLabel c ∉ labelsBefore ++ labelsAfter ++ [adjustmentLabel].
Proof.
  unfold sectionalLabel.
  destruct (string_of_Z_head c) as (ch & rest & -> & Hch).
  intros Hin. apply list_elem_of_In in Hin.
  cbv [labelsBefore labelsAfter adjustmentLabel app flat_map carpetLabels areaOrder
       packageOrder uphLabels uphKeys rugLabels rugSizes rugLabel pkgName
       RATES.carpets RATES.upholstery RATES.rugs_label label String.append In] in Hin.
  repeat (destruct Hin as [Hin|Hin]; [try discriminate Hin|]); [| |exact Hin];
    injection Hin as Hc _; subst ch; vm_compute in Hch; lia.
Qed.

Lemma canonicalOrder_NoDup c : NoDup (canonicalOrder c).
Proof.
  unfold canonicalOrder, rawOrder.
  rewrite <- app_assoc, <- app_comm_cons.
  rewrite <- Permutation_middle.
  apply NoDup_cons. split; [apply sectionalLabel_fresh|].
  apply (bool_decide_unpack _). vm_compute. exact I.
Qed.

(** The labels of a quote follow the traversal order. *)
Lemma quote_labels_order s :
  map l_label (q_lines (computeQuote s)) `sublist_of` canonicalOrder (sectionalCushions s).
Proof.
  rewrite computeQuote_eq. unfold canonicalOrder.
  destruct ((sumTotals (rawLines s) <? RATES.minCharge) && (0 <? sumTotals (rawLines s)));
    cbn [q_lines].
  - rewrite map_app. apply sublist_app; [apply rawLines_order|reflexivity].
  - apply sublist_inserts_r, rawLines_order.
Qed.

Lemma quote_labels_NoDup s : NoDup (map l_label (q_lines (computeQuote s))).
Proof.
  eapply sublist_NoDup; [apply canonicalOrder_NoDup|apply quote_labels_order].
Qed.

(** Two lines of a quote with the same label are the same line. *)
Lemma quote_label_unique s l1 l2 :
  In l1 (q_lines (computeQuote s)) -> In l2 (q_lines (computeQuote s)) ->
  l_label l1 = l_label l2 -> l1 = l2.
Proof.
  generalize (quote_labels_NoDup s).
  induction (q_lines (computeQuote s)) as [|l ls IH]; cbn [map In]; [tauto|].
  rewrite NoDup_cons, list_elem_of_In, in_map_iff.
  intros [Hl Hnd] [<-|H1] [<-|H2] Heq; eauto.
  - destruct Hl. eauto.
  - destruct Hl. eauto.
Qed.

Lemma rawLines_no_adjustment s : List.filter isAdjustment (rawLines s) = [].
Proof.
  assert (Hfresh : adjustmentLabel ∉ rawOrder (sectionalCushions s)).
  { pose proof (canonicalOrder_NoDup (sectionalCushions s)) as Hnd.
    unfold canonicalOrder in Hnd. apply NoDup_app in Hnd as (_ & Hdis & _).
    intros Hin. apply (Hdis _ Hin). constructor. }
  pose proof (sublist_subseteq _ _ (rawLines_order s)) as Hsub.
  induction (rawLines s) as [|l ls IH]; cbn [List.filter map] in *; [reflexivity|].
  unfold isAdjustment at 1.
  destruct (String.eqb_spec (l_label l) adjustmentLabel) as [Heq|_].
  - destruct Hfresh. apply Hsub. rewrite <- Heq. constructor.
  - apply IH. intros x Hx. apply Hsub. by constructor.
Qed.

Lemma raw_in_quote s l : In l (rawLines s) -> In l (q_lines (computeQuote s)).
Proof.
  rewrite computeQuote_eq.
  destruct ((sumTotals (rawLines s) <? RATES.minCharge) && (0 <? sumTotals (rawLines s)));
    cbn [q_lines]; rewrite ?in_app_iff; tauto.
Qed.

(** ** The minimum charge *)

(** C1. Minimum-charge law.  With [s] the sum of the totals of the lines
    before the adjustment: when [0 < s < minCharge] the quote is those lines
    followed by one line labelled Minimum Charge Adjustment of value
    [minCharge - s], it is the only line with that label, and the total is
    [minCharge]; when [s = 0] or [minCharge <= s] the quote is those lines
    alone, none of them an adjustment, and the total is [s]. *)
Theorem minimum_charge_law (s : Selection) :
  let raw := lines (rawQuote s) in
  let s0 := sumTotals raw in
  let q := computeQuote s in
  sub (rawQuote s) = s0
  /\ (0 < s0 < RATES.minCharge ->
      q_lines q = raw ++ [mkLine "Minimum Charge Adjustment" 1
                            (RATES.minCharge - s0) (RATES.minCharge - s0)]
      /\ length (List.filter isAdjustment (q_lines q)) = 1%nat
      /\ q_total q = RATES.minCharge)
  /\ (s0 = 0 ->
      q_lines q = raw /\ List.filter isAdjustment (q_lines q) = [] /\ q_total q = 0)
  /\ (RATES.minCharge <= s0 ->
      q_lines q = raw /\ List.filter isAdjustment (q_lines q) = [] /\ q_total q = s0).
Proof.
  cbv zeta. rewrite computeQuote_eq, rawQuote_eq. cbn [lines sub].
  pose proof (rawLines_no_adjustment s) as Hno.
  split; [reflexivity|].
  repeat split.
  - destruct H as [Hpos Hlt].
    apply Z.ltb_lt in Hpos, Hlt. by rewrite Hpos, Hlt.
  - destruct H as [Hpos Hlt].
    apply Z.ltb_lt in Hpos, Hlt. rewrite Hpos, Hlt. cbn [andb q_lines].
    by rewrite List.filter_app, Hno.
  - destruct H as [Hpos Hlt].
    apply Z.ltb_lt in Hpos, Hlt. rewrite Hpos, Hlt. cbn [andb q_total]. lia.
  - rewrite H. reflexivity.
  - rewrite H. exact Hno.
  - rewrite H. reflexivity.
  - apply Z.ltb_ge in H. by rewrite H.
  - apply Z.ltb_ge in H. by rewrite H.
  - apply Z.ltb_ge in H. by rewrite H.
Qed.

Lemma minimum_charge_law_witness :
  q_lines (computeQuote oneRoom) =
    [ mkLine "Standard Steam Clean" 1 (usd 45) (usd 45);
      mkLine "Minimum Charge Adjustment" 1 (usd 90) (usd 90) ]
  /\ q_total (computeQuote oneRoom) = usd 135.
Proof.
  destruct (minimum_charge_law oneRoom) as (_ & Hlow & _).
  destruct Hlow as (Hl & _ & Ht); [vm_compute; split; reflexivity|].
  split; [exact Hl|exact Ht].
Defined.

(** ** Traversal order *)

(** C5. Line ordering.  The labels of the lines of a quote, read in order,
    are obtained from the fixed list [canonicalOrder] (carpet rooms, stairs,
    downstairs hallway, upstairs landing, walk-in closet, tile, sectional and
    its add-ons, the other upholstery items each followed by its add-ons, rugs
    by size then package, monthly, one-time and flea and tick pest control,
    zone fee, minimum charge adjustment) by deleting entries; that list has no
    repeated label, so the position of every line is fixed by it. *)
Theorem line_ordering (s : Selection) :
  map l_label (q_lines (computeQuote s)) `sublist_of` canonicalOrder (sectionalCushions s)
  /\ NoDup (canonicalOrder (sectionalCushions s)).
Proof. split; [apply quote_labels_order|apply canonicalOrder_NoDup]. Qed.

(** The traversal order, written out for six cushions. *)
Lemma canonicalOrder_six :
  canonicalOrder 6 =
  [ "Standard Steam Clean"; "Factory Reset Clean"; "Factory Reset Deluxe";
    "Standard Steam Clean (Stairs)"; "Factory Reset Clean (Stairs)";
    "Factory Reset Deluxe (Stairs)";
    "Standard Steam Clean (Downstairs Hallway)";
    "Factory Reset Clean (Downstairs Hallway)";
    "Factory Reset Deluxe (Downstairs Hallway)";
    "Standard Steam Clean (Upstairs Landing)";
    "Factory Reset Clean (Upstairs Landing)";
    "Factory Reset Deluxe (Upstairs Landing)";
    "Standard Steam Clean (Walk-In Closet)"; "Factory Reset Clean (Walk-In Closet)";
    "Factory Reset Deluxe (Walk-In Closet)";
    "Tile and Grout Cleaning";
    "Sectional - 6 cushions"; "Sectional - Deodorizer"; "Sectional - Fabric Protector";
    "Ottoman"; "Ottoman - Deodorizer"; "Ottoman - Fabric Protector";
    "Accent Chair"; "Accent Chair - Deodorizer"; "Accent Chair - Fabric Protector";
    "Dining Chair"; "Dining Chair - Deodorizer"; "Dining Chair - Fabric Protector";
    "Recliner Chair"; "Recliner Chair - Deodorizer"; "Recliner Chair - Fabric Protector";
    "Oversized Double Chair"; "Oversized Double Chair - Deodorizer";
    "Oversized Double Chair - Fabric Protector";
    "Throw Pillow"; "Throw Pillow - Deodorizer"; "Throw Pillow - Fabric Protector";
    "Loveseat"; "Loveseat - Deodorizer"; "Loveseat - Fabric Protector";
    "Couch (3 Cushions)"; "Couch (3 Cushions) - Deodorizer";
    "Couch (3 Cushions) - Fabric Protector";
    "Couch (4 Cushions)"; "Couch (4 Cushions) - Deodorizer";
    "Couch (4 Cushions) - Fabric Protector";
    "Twin Mattress"; "Twin Mattress - Deodorizer"; "Twin Mattress - Fabric Protector";
    "Full Mattress"; "Full Mattress - Deodorizer"; "Full Mattress - Fabric Protector";
    "Queen Mattress"; "Queen Mattress - Deodorizer"; "Queen Mattress - Fabric Protector";
    "King Mattress"; "King Mattress - Deodorizer"; "King Mattress - Fabric Protector";
    "Area Rug Below 5x8 - Standard Steam Clean";
    "Area Rug Below 5x8 - Factory Reset Clean";
    "Area Rug Below 5x8 - Factory Reset Deluxe";
    "Area Rug 5x8 to 6x9 - Standard Steam Clean";
    "Area Rug 5x8 to 6x9 - Factory Reset Clean";
    "Area Rug 5x8 to 6x9 - Factory Reset Deluxe";
    "Area Rug 6x9 to 8x10 - Standard Steam Clean";
    "Area Rug 6x9 to 8x10 - Factory Reset Clean";
    "Area Rug 6x9 to 8x10 - Factory Reset Deluxe";
    "Area Rug 8x10 to 9x12 - Standard Steam Clean";
    "Area Rug 8x10 to 9x12 - Factory Reset Clean";
    "Area Rug 8x10 to 9x12 - Factory Reset Deluxe";
    "Area Rug 9x12 to 10x14 - Standard Steam Clean";
    "Area Rug 9x12 to 10x14 - Factory Reset Clean";
    "Area Rug 9x12 to 10x14 - Factory Reset Deluxe";
    "Area Rug 10x14 to 12x18 - Standard Steam Clean";
    "Area Rug 10x14 to 12x18 - Factory Reset Clean";
    "Area Rug 10x14 to 12x18 - Factory Reset Deluxe";
    "Area Rug 12x18 to 20x20 - Standard Steam Clean";
    "Area Rug 12x18 to 20x20 - Factory Reset Clean";
    "Area Rug 12x18 to 20x20 - Factory Reset Deluxe";
    "Monthly General Pest Control (AL only)";
    "One-Time General Pest Control (AL only)";
    "Move-Out Flea and Tick (AL only)";
    "Service Zone Fee";
    "Minimum Charge Adjustment" ].
Proof. reflexivity. Qed.

(** ** Invariants of the summary *)

Lemma Forall_flat_map_intro {K} (P : LineItem -> Prop) (f : K -> list LineItem) ks :
  (forall k, Forall P (f k)) -> Forall P (flat_map f ks).
Proof.
  intros Hk. induction ks as [|k ks IH]; cbn [flat_map].
  - constructor.
  - apply Forall_app. split; [apply Hk|apply IH].
Qed.

Ltac lines_ok := repeat constructor; unfold lineOK; cbn [l_total l_qty l_each]; lia.

Lemma rawLines_lineOK s : Forall lineOK (rawLines s).
Proof.
  unfold rawLines. rewrite !Forall_app. repeat split.
  1-5: apply Forall_flat_map_intro; intros k; unfold carpetLine;
       match goal with |- context [?q =? 0] => destruct (q =? 0) end; lines_ok.
  - unfold tileLines. destruct (0 <? Z.max 0 (tileTotalSqft s)); lines_ok.
  - unfold sectionalLines, addOnLine.
    destruct (0 <? sectionalQty s), (sectionalDeo s), (sectionalProt s);
      cbn [app]; lines_ok.
  - apply Forall_flat_map_intro; intros k. unfold uphLine, addOnLine.
    destruct (uphQty s k =? 0), (uphDeo s k), (uphProt s k); cbn [app]; lines_ok.
  - apply Forall_flat_map_intro; intros size.
    apply Forall_flat_map_intro; intros pkg. unfold rugLine.
    destruct (rugPackages s size pkg =? 0); lines_ok.
  - unfold pestMonthlyLines. destruct (pestMonthly s); lines_ok.
  - unfold pestOneTimeLines. destruct (pestOneTime s); lines_ok.
  - unfold fleaLines.
    destruct (0 <? pestHomeSqft s), (pestHomeSqft s <=? 1600),
      (pestHomeSqft s <=? 3200); lines_ok.
  - unfold zoneLines. destruct (String.eqb (zone s) "extended"); lines_ok.
Qed.

(** C7. Invariants of the summary.  Every line of a quote has
    [total = qty * each] (the add-on lines and the adjustment line too: their
    computed unit price is stored in [each]), and the total of the quote is the
    sum of the line totals, added in the order of the lines. *)
Theorem summary_invariants (s : Selection) :
  Forall (fun l => l_total l = l_qty l * l_each l) (q_lines (computeQuote s))
  /\ q_total (computeQuote s) = sumTotals (q_lines (computeQuote s))
  /\ q_subtotal (computeQuote s) = q_total (computeQuote s).
Proof.
  rewrite computeQuote_eq.
  pose proof (rawLines_lineOK s) as Hok.
  destruct ((sumTotals (rawLines s) <? RATES.minCharge) && (0 <? sumTotals (rawLines s)));
    cbn [q_lines q_total q_subtotal].
  - split; [|split; [|reflexivity]].
    + apply Forall_app. split; [exact Hok|]. repeat constructor. cbn. lia.
    + rewrite sumTotals_app. reflexivity.
  - split; [exact Hok|split; reflexivity].
Qed.

(** ** Selections with nothing, or one carpet pair, selected *)

Lemma flat_map_all_nil {K} (f : K -> list LineItem) ks :
  (forall k, f k = []) -> flat_map f ks = [].
Proof.
  intros Hk. induction ks as [|k ks IH]; cbn [flat_map]; [reflexivity|].
  by rewrite Hk, IH.
Qed.

Lemma othersOff_rawLines s :
  othersOff s ->
  rawLines s =
    carpetLines RATES.rooms (carpetRooms s)
    ++ carpetLines RATES.stairs (carpetStairs s)
    ++ carpetLines RATES.downHall (downHall s)
    ++ carpetLines RATES.upLanding (upLanding s)
    ++ carpetLines RATES.walkIn (walkIn s)
    ++ zoneLines s.
Proof.
  intros (Htile & Hqty & _ & _ & Hsec & _ & _ & Hrug & Hmon & Hone & Hflea).
  unfold rawLines.
  replace (tileLines s) with (@nil LineItem)
    by (unfold tileLines; rewrite Htile; reflexivity).
  replace (sectionalLines s) with (@nil LineItem)
    by (unfold sectionalLines; rewrite Hsec; reflexivity).
  replace (uphLines s) with (@nil LineItem).
  2:{ symmetry. apply flat_map_all_nil. intros k.
      unfold uphLine. rewrite Hqty. reflexivity. }
  replace (rugLines s) with (@nil LineItem).
  2:{ symmetry. apply flat_map_all_nil. intros size.
      apply flat_map_all_nil. intros pkg.
      unfold rugLine. rewrite Hrug. reflexivity. }
  replace (pestMonthlyLines s) with (@nil LineItem)
    by (unfold pestMonthlyLines; rewrite Hmon; reflexivity).
  replace (pestOneTimeLines s) with (@nil LineItem)
    by (unfold pestOneTimeLines; rewrite Hone; reflexivity).
  replace (fleaLines s) with (@nil LineItem)
    by (unfold fleaLines; rewrite Hflea; reflexivity).
  reflexivity.
Qed.

Lemma carpetsOff_carpetLines s area :
  carpetsOff s -> carpetLines area (carpetState s area) = [].
Proof.
  intros Hoff. apply flat_map_all_nil. intros k.
  unfold carpetLine. rewrite Hoff. reflexivity.
Qed.

Lemma nothing_selected_rawLines s :
  carpetsOff s -> othersOff s -> rawLines s = zoneLines s.
Proof.
  intros Hc Ho. rewrite (othersOff_rawLines s Ho).
  rewrite (carpetsOff_carpetLines s RATES.rooms Hc : carpetLines _ (carpetRooms s) = []).
  rewrite (carpetsOff_carpetLines s RATES.stairs Hc : carpetLines _ (carpetStairs s) = []).
  rewrite (carpetsOff_carpetLines s RATES.downHall Hc : carpetLines _ (downHall s) = []).
  rewrite (carpetsOff_carpetLines s RATES.upLanding Hc : carpetLines _ (upLanding s) = []).
  rewrite (carpetsOff_carpetLines s RATES.walkIn Hc : carpetLines _ (walkIn s) = []).
  reflexivity.
Qed.

(** C8, as amended.  When every quantity is 0, no flag is set and the zone is
    local, the quote has no line and its total is 0. *)
Theorem empty_selection_local (s : Selection) :
  carpetsOff s -> othersOff s -> zone s = "local" ->
  q_lines (computeQuote s) = [] /\ q_total (computeQuote s) = 0.
Proof.
  intros Hc Ho Hz.
  rewrite computeQuote_eq, (nothing_selected_rawLines s Hc Ho).
  unfold zoneLines. rewrite Hz. split; reflexivity.
Qed.

Lemma empty_selection_local_witness :
  q_lines (computeQuote initialSelection) = []
  /\ q_total (computeQuote initialSelection) = 0.
Proof.
  apply (empty_selection_local initialSelection).
  - intros [] []; reflexivity.
  - repeat split.
  - reflexivity.
Defined.

(** C8 as stated fails: with every quantity 0 and no flag set, the extended
    zone alone gives a quote with lines and a total that is not 0. *)
Lemma empty_selection_extended_not_empty :
  carpetsOff (withZone "extended" initialSelection)
  /\ othersOff (withZone "extended" initialSelection)
  /\ q_lines (computeQuote (withZone "extended" initialSelection)) <> []
  /\ q_total (computeQuote (withZone "extended" initialSelection)) <> 0.
Proof.
  split; [intros [] []; reflexivity|].
  split; [repeat split|].
  split; vm_compute; discriminate.
Qed.

(** C9.  With the extended zone, every quantity 0 and every flag off, the
    quote has exactly two lines, the zone fee of 45 and the minimum charge
    adjustment of 90, and its total is 135. *)
Theorem extended_zone_alone (s : Selection) :
  carpetsOff s -> othersOff s -> zone s = "extended" ->
  q_lines (computeQuote s) =
    [ mkLine "Service Zone Fee" 1 (usd 45) (usd 45);
      mkLine "Minimum Charge Adjustment" 1 (usd 90) (usd 90) ]
  /\ q_total (computeQuote s) = usd 135.
Proof.
  intros Hc Ho Hz.
  rewrite computeQuote_eq, (nothing_selected_rawLines s Hc Ho).
  unfold zoneLines. rewrite Hz. split; reflexivity.
Qed.

Lemma extended_zone_alone_witness :
  q_lines (computeQuote (withZone "extended" initialSelection)) =
    [ mkLine "Service Zone Fee" 1 (usd 45) (usd 45);
      mkLine "Minimum Charge Adjustment" 1 (usd 90) (usd 90) ]
  /\ q_total (computeQuote (withZone "extended" initialSelection)) = usd 135.
Proof.
  apply (extended_zone_alone (withZone "extended" initialSelection)).
  - intros [] []; reflexivity.
  - repeat split.
  - reflexivity.
Defined.

Lemma onlyCarpet_carpetLines s area k q area' :
  (forall a' k', carpetState s a' k' = if decide (a' = area /\ k' = k) then q else 0) ->
  0 < q ->
  carpetLines area' (carpetState s area') =
    if decide (area' = area) then
      [mkLine (label (RATES.carpets area k)) q (price (RATES.carpets area k))
         (q * price (RATES.carpets area k))]
    else [].
Proof.
  intros Hst Hq.
  assert (Hne : (q =? 0) = false) by (apply Z.eqb_neq; lia).
  unfold carpetLines, RATES.tierKeys, carpetLine. cbn [flat_map].
  rewrite !Hst.
  destruct area, area', k; cbn [decide decide_rel]; cbv [and_dec areaType_eq_dec tier_eq_dec
    RATES.areaType_rec RATES.areaType_rect tier_rec tier_rect decide decide_rel];
    cbn [Z.eqb app]; rewrite ?Hne; reflexivity.
Qed.

Lemma carpet_price_pos area k : 0 < price (RATES.carpets area k).
Proof. destruct area, k; reflexivity. Qed.

(** C4, as amended.  When exactly one carpet pair has a quantity [q > 0],
    everything else is zero or off and the zone is local, the quote starts
    with the line of that pair, of total [q * price], and has no other line
    except, when [q * price] is below the minimum charge, the adjustment line
    of [minCharge - q * price] that follows it. *)
Theorem single_carpet_quote (s : Selection) (area : RATES.areaType) (k : tier) (q : Z) :
  onlyCarpet s area k q -> zone s = "local" -> 0 < q ->
  let p := price (RATES.carpets area k) in
  q_lines (computeQuote s) =
    mkLine (label (RATES.carpets area k)) q p (q * p)
    :: (if q * p <? RATES.minCharge then
          [mkLine "Minimum Charge Adjustment" 1
             (RATES.minCharge - q * p) (RATES.minCharge - q * p)]
        else []).
Proof.
  intros [Hst Ho] Hz Hq p.
  rewrite computeQuote_eq, (othersOff_rawLines s Ho).
  rewrite (onlyCarpet_carpetLines s area k q RATES.rooms Hst Hq
            : carpetLines _ (carpetRooms s) = _).
  rewrite (onlyCarpet_carpetLines s area k q RATES.stairs Hst Hq
            : carpetLines _ (carpetStairs s) = _).
  rewrite (onlyCarpet_carpetLines s area k q RATES.downHall Hst Hq
            : carpetLines _ (downHall s) = _).
  rewrite (onlyCarpet_carpetLines s area k q RATES.upLanding Hst Hq
            : carpetLines _ (upLanding s) = _).
  rewrite (onlyCarpet_carpetLines s area k q RATES.walkIn Hst Hq
            : carpetLines _ (walkIn s) = _).
  unfold zoneLines. rewrite Hz. cbn [String.eqb Ascii.eqb Bool.eqb].
  pose proof (carpet_price_pos area k) as Hp. fold p in Hp |- *.
  assert (Hpos : (0 <? q * p) = true) by (apply Z.ltb_lt; nia).
  assert (Hsum : forall l : LineItem, sumTotals [l] = l_total l).
  { intros l. unfold sumTotals, sumFrom. cbn [fold_left]. lia. }
  destruct area; cbn [decide decide_rel];
    cbv [areaType_eq_dec RATES.areaType_rec RATES.areaType_rect decide decide_rel];
    cbn [app]; rewrite Hsum; cbn [l_total]; rewrite Hpos, andb_true_r;
    destruct (q * p <? RATES.minCharge); reflexivity.
Qed.

Lemma single_carpet_quote_witness :
  q_lines (computeQuote oneRoom) =
    [ mkLine "Standard Steam Clean" 1 (usd 45) (1 * usd 45);
      mkLine "Minimum Charge Adjustment" 1
        (RATES.minCharge - 1 * usd 45) (RATES.minCharge - 1 * usd 45) ].
Proof.
  apply (single_carpet_quote oneRoom RATES.rooms standard 1).
  - split; [intros [] []; reflexivity|repeat split].
  - reflexivity.
  - lia.
Defined.

(** C4 as stated fails: one standard room alone gives two lines, the room
    line and the minimum charge adjustment. *)
Lemma single_carpet_other_line :
  onlyCarpet oneRoom RATES.rooms standard 1
  /\ zone oneRoom = "local"
  /\ q_lines (computeQuote oneRoom) =
       [ mkLine "Standard Steam Clean" 1 (usd 45) (usd 45);
         mkLine "Minimum Charge Adjustment" 1 (usd 90) (usd 90) ]
  /\ q_lines (computeQuote oneRoom) <>
       [ mkLine "Standard Steam Clean" 1 (usd 45) (usd 45) ].
Proof.
  split; [split; [intros [] []; reflexivity|repeat split]|].
  split; [reflexivity|].
  split; [reflexivity|].
  vm_compute. discriminate.
Qed.

(** ** Add-ons *)

(** [Math_round_mul a b] is the whole number of units nearest to the product
    of the amounts [a] and [b], a half rounding up. *)
Lemma Math_round_mul_nearest a b :
  exists r, Math_round_mul a b = usd r
    /\ 2 * (10000 * r) - 10000 <= 2 * (a * b) < 2 * (10000 * r) + 10000.
Proof.
  unfold Math_round_mul. set (n := a * b).
  exists ((n + 5000) / 10000). split; [reflexivity|].
  pose proof (Z.div_mod (n + 5000) 10000 ltac:(lia)) as Hdm.
  pose proof (Z.mod_pos_bound (n + 5000) 10000 ltac:(lia)) as Hb.
  lia.
Qed.

Lemma sectionalPrices_miss c :
  ~ (4 <= c <= 12) -> RATES.sectionalPrices !! c = None.
Proof.
  intros Hc. unfold RATES.sectionalPrices.
  apply not_elem_of_list_to_map_1. cbn [fmap list_fmap fst].
  intros Hin.
  repeat (apply elem_of_cons in Hin as [->|Hin]; [lia|]).
  by apply elem_of_nil in Hin.
Qed.

Lemma sectionalLines_in s :
  0 < sectionalQty s ->
  In (mkLine (sectionalLabel (sectionalCushions s)) (sectionalQty s) (sectionalBase s)
        (sectionalBase s * sectionalQty s)) (rawLines s)
  /\ (sectionalDeo s = true ->
      In (mkLine "Sectional - Deodorizer" (sectionalQty s)
            (Z.min deoCap (Math_round_mul (sectionalBase s) deoPct))
            (Z.min deoCap (Math_round_mul (sectionalBase s) deoPct) * sectionalQty s))
         (rawLines s))
  /\ (sectionalProt s = true ->
      In (mkLine "Sectional - Fabric Protector" (sectionalQty s)
            (Z.min fabricCap (Math_round_mul (sectionalBase s) fabricPct))
            (Z.min fabricCap (Math_round_mul (sectionalBase s) fabricPct) * sectionalQty s))
         (rawLines s)).
Proof.
  intros Hq. apply Z.ltb_lt in Hq.
  unfold rawLines. rewrite !in_app_iff.
  unfold sectionalLines, addOnLine. rewrite Hq.
  repeat split.
  - cbn [In]. tauto.
  - intros ->. cbn [In app]. tauto.
  - intros ->. destruct (sectionalDeo s); cbn [In app]; tauto.
Qed.

Lemma uphLines_in s k :
  In k uphKeys -> uphQty s k <> 0 ->
  In (mkLine (label (RATES.upholstery k)) (uphQty s k) (price (RATES.upholstery k))
        (price (RATES.upholstery k) * uphQty s k)) (rawLines s)
  /\ (uphDeo s k = true ->
      In (mkLine (label (RATES.upholstery k) +:+ " - Deodorizer") (uphQty s k)
            (Z.min deoCap (Math_round_mul (price (RATES.upholstery k)) deoPct))
            (Z.min deoCap (Math_round_mul (price (RATES.upholstery k)) deoPct) * uphQty s k))
         (rawLines s))
  /\ (uphProt s k = true ->
      In (mkLine (label (RATES.upholstery k) +:+ " - Fabric Protector") (uphQty s k)
            (Z.min fabricCap (Math_round_mul (price (RATES.upholstery k)) fabricPct))
            (Z.min fabricCap (Math_round_mul (price (RATES.upholstery k)) fabricPct)
             * uphQty s k))
         (rawLines s)).
Proof.
  intros Hk Hq. apply Z.eqb_neq in Hq.
  assert (Hin : forall l, In l (uphLine s k) -> In l (rawLines s)).
  { intros l Hl. unfold rawLines. rewrite !in_app_iff.
    do 7 right. left. apply in_flat_map. eauto. }
  unfold uphLine, addOnLine in Hin. rewrite Hq in Hin.
  repeat split.
  - apply Hin. cbn [In]. tauto.
  - intros Hd. apply Hin. rewrite Hd. cbn [In app]. tauto.
  - intros Hp. apply Hin. rewrite Hp.
    destruct (uphDeo s k); cbn [In app]; tauto.
Qed.

(** A line of the quote is determined by its label. *)
Lemma quote_line_by_label s l0 :
  In l0 (rawLines s) ->
  forall l, In l (q_lines (computeQuote s)) /\ l_label l = l_label l0 <-> l = l0.
Proof.
  intros H0 l. apply raw_in_quote in H0. split.
  - intros [Hl Heq]. by apply (quote_label_unique s).
  - intros ->. tauto.
Qed.

(** C2. Add-on cap law.  For an upholstery item of the list with base price
    [b] and quantity [q > 0] whose deodorizer flag is set, the quote has one
    line labelled with the item and Deodorizer; its unit price is
    [min(deodorizerCap, round(b * deodorizerPct))] and its total is that unit
    price times [q].  The same holds for the fabric protector with its cap and
    percentage, and for the sectional with the base price looked up by the
    cushion count. *)
Theorem addon_cap_law (s : Selection) :
  (forall k, In k uphKeys -> 0 < uphQty s k ->
     let b := price (RATES.upholstery k) in
     let q := uphQty s k in
     let deoEach := Z.min RATES.deodorizerCap (Math_round_mul b RATES.deodorizerPct) in
     let fabricEach :=
       Z.min RATES.fabricProtectorCap (Math_round_mul b RATES.fabricProtectorPct) in
     (uphDeo s k = true ->
      forall l,
        In l (q_lines (computeQuote s))
        /\ l_label l = label (RATES.upholstery k) +:+ " - Deodorizer"
        <-> l = mkLine (label (RATES.upholstery k) +:+ " - Deodorizer") q
                  deoEach (deoEach * q))
     /\ (uphProt s k = true ->
         forall l,
           In l (q_lines (computeQuote s))
           /\ l_label l = label (RATES.upholstery k) +:+ " - Fabric Protector"
           <-> l = mkLine (label (RATES.upholstery k) +:+ " - Fabric Protector") q
                     fabricEach (fabricEach * q)))
  /\ (0 < sectionalQty s ->
      let b := default 0 (RATES.sectionalPrices !! sectionalCushions s) in
      let q := sectionalQty s in
      let deoEach := Z.min RATES.deodorizerCap (Math_round_mul b RATES.deodorizerPct) in
      let fabricEach :=
        Z.min RATES.fabricProtectorCap (Math_round_mul b RATES.fabricProtectorPct) in
      (sectionalDeo s = true ->
       forall l,
         In l (q_lines (computeQuote s)) /\ l_label l = "Sectional - Deodorizer"
         <-> l = mkLine "Sectional - Deodorizer" q deoEach (deoEach * q))
      /\ (sectionalProt s = true ->
          forall l,
            In l (q_lines (computeQuote s)) /\ l_label l = "Sectional - Fabric Protector"
            <-> l = mkLine "Sectional - Fabric Protector" q fabricEach (fabricEach * q))).
Proof.
  split.
  - intros k Hk Hq. cbv zeta.
    destruct (uphLines_in s k Hk ltac:(lia)) as (_ & Hdeo & Hprot).
    split; intros Hflag l.
    + apply (quote_line_by_label s _ (Hdeo Hflag)).
    + apply (quote_line_by_label s _ (Hprot Hflag)).
  - intros Hq. cbv zeta.
    destruct (sectionalLines_in s Hq) as (_ & Hdeo & Hprot).
    split; intros Hflag l.
    + apply (quote_line_by_label s _ (Hdeo Hflag)).
    + apply (quote_line_by_label s _ (Hprot Hflag)).
Qed.

(** Three twin mattresses at 50 with the deodorizer: the unit price is
    [round(7.5) = 8] and the line total 24, where rounding the scaled total
    [22.5] would give 23. *)
Lemma addon_cap_law_witness :
  In (mkLine "Twin Mattress - Deodorizer" 3 (usd 8) (usd 24))
     (q_lines (computeQuote threeTwins))
  /\ usd 8 = Z.min RATES.deodorizerCap (Math_round_mul (usd 50) RATES.deodorizerPct).
Proof.
  split; [|reflexivity].
  destruct (addon_cap_law threeTwins) as [Huph _].
  destruct (Huph RATES.mattressTwin) as [Hdeo _].
  - cbn. tauto.
  - vm_compute. reflexivity.
  - apply (Hdeo eq_refl (mkLine "Twin Mattress - Deodorizer" 3 (usd 8) (usd 24))).
    reflexivity.
Defined.

(** C6. Sectional lookup miss.  With a sectional quantity [q > 0] and a
    cushion count that is not one of the keys 4 to 12, the lookup finds nothing
    and the base price is 0: the sectional line has unit price 0 and total 0,
    and so has each add-on line whose flag is set, as
    [min(cap, round(0 * pct)) = 0]. *)
Theorem sectional_lookup_miss (s : Selection) :
  0 < sectionalQty s -> ~ (4 <= sectionalCushions s <= 12) ->
  RATES.sectionalPrices !! sectionalCushions s = None
  /\ Z.min RATES.deodorizerCap (Math_round_mul 0 RATES.deodorizerPct) = 0
  /\ Z.min RATES.fabricProtectorCap (Math_round_mul 0 RATES.fabricProtectorPct) = 0
  /\ (forall l,
        In l (q_lines (computeQuote s))
        /\ l_label l = "Sectional - " +:+ string_of_Z (sectionalCushions s) +:+ " cushions"
        <-> l = mkLine ("Sectional - " +:+ string_of_Z (sectionalCushions s) +:+ " cushions")
                  (sectionalQty s) 0 0)
  /\ (sectionalDeo s = true ->
      forall l,
        In l (q_lines (computeQuote s)) /\ l_label l = "Sectional - Deodorizer"
        <-> l = mkLine "Sectional - Deodorizer" (sectionalQty s) 0 0)
  /\ (sectionalProt s = true ->
      forall l,
        In l (q_lines (computeQuote s)) /\ l_label l = "Sectional - Fabric Protector"
        <-> l = mkLine "Sectional - Fabric Protector" (sectionalQty s) 0 0).
Proof.
  intros Hq Hc.
  pose proof (sectionalPrices_miss _ Hc) as Hmiss.
  destruct (sectionalLines_in s Hq) as (Hbase & Hdeo & Hprot).
  unfold sectionalBase in Hbase, Hdeo, Hprot. rewrite Hmiss in Hbase, Hdeo, Hprot.
  cbn [default] in Hbase, Hdeo, Hprot.
  change (Z.min deoCap (Math_round_mul 0 deoPct)) with 0 in Hdeo.
  change (Z.min fabricCap (Math_round_mul 0 fabricPct)) with 0 in Hprot.
  change (0 * sectionalQty s) with 0 in Hbase, Hdeo, Hprot.
  split; [exact Hmiss|].
  split; [reflexivity|].
  split; [reflexivity|].
  split; [|split].
  - intros l. apply (quote_line_by_label s _ Hbase).
  - intros Hflag l. apply (quote_line_by_label s _ (Hdeo Hflag)).
  - intros Hflag l. apply (quote_line_by_label s _ (Hprot Hflag)).
Qed.

Lemma sectional_lookup_miss_witness :
  q_lines (computeQuote bigSectional) =
    [ mkLine "Sectional - 13 cushions" 2 0 0;
      mkLine "Sectional - Deodorizer" 2 0 0;
      mkLine "Sectional - Fabric Protector" 2 0 0 ]
  /\ RATES.sectionalPrices !! sectionalCushions bigSectional = None.
Proof.
  split; [reflexivity|].
  apply (sectional_lookup_miss bigSectional).
  - vm_compute. reflexivity.
  - cbn. lia.
Defined.

(** ** Flea and tick tiers *)

(** Up to 1600 square feet the quote has the flea and tick line at 149, up to
    3200 at 300. *)
Lemma flea_tier_lines s :
  0 < pestHomeSqft s ->
  (pestHomeSqft s <= 1600 ->
   forall l,
     In l (q_lines (computeQuote s)) /\ l_label l = "Move-Out Flea and Tick (AL only)"
     <-> l = mkLine "Move-Out Flea and Tick (AL only)" 1 (usd 149) (usd 149))
  /\ (1600 < pestHomeSqft s <= 3200 ->
      forall l,
        In l (q_lines (computeQuote s)) /\ l_label l = "Move-Out Flea and Tick (AL only)"
        <-> l = mkLine "Move-Out Flea and Tick (AL only)" 1 (usd 300) (usd 300)).
Proof.
  intros Hpos. apply Z.ltb_lt in Hpos.
  split.
  - intros H1 l. apply Z.leb_le in H1.
    apply (quote_line_by_label s (mkLine _ _ _ _)).
    unfold rawLines. rewrite !in_app_iff. do 11 right. left.
    unfold fleaLines. rewrite Hpos, H1. by left.
  - intros [H1 H2] l. apply Z.leb_gt in H1. apply Z.leb_le in H2.
    apply (quote_line_by_label s (mkLine _ _ _ _)).
    unfold rawLines. rewrite !in_app_iff. do 11 right. left.
    unfold fleaLines. rewrite Hpos, H1, H2. by left.
Qed.

(** Above 3200 square feet the summary is the one of the same selection with
    no square footage entered: no line, and no other field, tells the two
    apart. *)
Lemma flea_over_largest_tier_silent s :
  3200 < pestHomeSqft s -> computeQuote s = computeQuote (withPestHomeSqft 0 s).
Proof.
  intros Hbig.
  assert (Hraw : rawLines s = rawLines (withPestHomeSqft 0 s)).
  { unfold rawLines.
    replace (fleaLines s) with (@nil LineItem); [reflexivity|].
    unfold fleaLines.
    destruct (Z.leb_spec (pestHomeSqft s) 1600); [lia|].
    destruct (Z.leb_spec (pestHomeSqft s) 3200); [lia|].
    by destruct (0 <? pestHomeSqft s). }
  by rewrite !computeQuote_eq, Hraw.
Qed.

Lemma rawOrder_NoDup c : NoDup (rawOrder c).
Proof.
  pose proof (canonicalOrder_NoDup c) as Hnd.
  unfold canonicalOrder in Hnd. by apply NoDup_app in Hnd as (? & _ & _).
Qed.

(** The lines before the adjustment are those of the same selection with
    another square footage, but for the flea and tick block. *)
Lemma rawLines_flea_split s :
  exists before,
    forall n,
      rawLines (withPestHomeSqft n s)
      = before ++ fleaLines (withPestHomeSqft n s) ++ zoneLines s.
Proof.
  eexists. intros n. unfold rawLines.
  cbn [withPestHomeSqft carpetRooms carpetStairs downHall upLanding walkIn].
  change (tileLines (withPestHomeSqft n s)) with (tileLines s).
  change (sectionalLines (withPestHomeSqft n s)) with (sectionalLines s).
  change (uphLines (withPestHomeSqft n s)) with (uphLines s).
  change (rugLines (withPestHomeSqft n s)) with (rugLines s).
  change (pestMonthlyLines (withPestHomeSqft n s)) with (pestMonthlyLines s).
  change (pestOneTimeLines (withPestHomeSqft n s)) with (pestOneTimeLines s).
  change (zoneLines (withPestHomeSqft n s)) with (zoneLines s).
  rewrite !app_assoc. reflexivity.
Qed.

(** No label of the traversal order carries the custom quote suffix. *)
Lemma custom_quote_label_fresh c :
  ~ In "Move-Out Flea and Tick (AL only) - custom quote" (canonicalOrder c).
Proof.
  intros Hin.
  cbv [canonicalOrder rawOrder sectionalLabel labelsBefore labelsAfter adjustmentLabel
       app flat_map carpetLabels areaOrder packageOrder uphLabels uphKeys rugLabels
       rugSizes rugLabel pkgName RATES.carpets RATES.upholstery RATES.rugs_label label
       String.append In] in Hin.
  repeat (destruct Hin as [Hin|Hin]; [discriminate Hin|]). exact Hin.
Qed.

(** Above 3200 square feet, and without a square footage, no line of the
    quote carries the flea and tick label, with or without the suffix. *)
Lemma flea_no_line s :
  3200 < pestHomeSqft s \/ pestHomeSqft s <= 0 ->
  forall l,
    In l (q_lines (computeQuote s)) ->
    l_label l <> "Move-Out Flea and Tick (AL only)"
    /\ l_label l <> "Move-Out Flea and Tick (AL only) - custom quote".
Proof.
  intros Hsq l Hl. split.
  - intros Hlab.
    assert (Hraw : In l (rawLines s)).
    { rewrite computeQuote_eq in Hl.
      destruct ((sumTotals (rawLines s) <? RATES.minCharge)
                && (0 <? sumTotals (rawLines s))); cbn [q_lines] in Hl; [|exact Hl].
      apply in_app_iff in Hl as [Hl|[<-|[]]]; [exact Hl|discriminate Hlab]. }
    destruct (rawLines_flea_split s) as [before Hsplit].
    pose proof (Hsplit (pestHomeSqft s)) as Hs.
    pose proof (Hsplit 1) as H1.
    replace (withPestHomeSqft (pestHomeSqft s) s) with s in Hs by (by destruct s).
    replace (fleaLines s) with (@nil LineItem) in Hs.
    2:{ unfold fleaLines.
        destruct (Z.ltb_spec 0 (pestHomeSqft s)); [|reflexivity].
        destruct (Z.leb_spec (pestHomeSqft s) 1600); [lia|].
        destruct (Z.leb_spec (pestHomeSqft s) 3200); [lia|reflexivity]. }
    change (fleaLines (withPestHomeSqft 1 s))
      with [mkLine "Move-Out Flea and Tick (AL only)" 1 (usd 149) (usd 149)] in H1.
    pose proof (sublist_NoDup _ _ (rawOrder_NoDup _) (rawLines_order (withPestHomeSqft 1 s)))
      as Hnd.
    rewrite H1, !map_app in Hnd. cbn [map l_label app] in Hnd.
    apply NoDup_app in Hnd as (_ & Hdis & Hnd).
    apply NoDup_cons in Hnd as [Hnz _].
    rewrite Hs in Hraw. cbn [app] in Hraw.
    apply in_app_iff in Hraw as [Hb|Hz].
    + apply (Hdis (l_label l)).
      * apply list_elem_of_In, in_map, Hb.
      * rewrite Hlab. constructor.
    + apply Hnz. rewrite <- Hlab. apply list_elem_of_In, in_map, Hz.
  - intros Hlab.
    apply (custom_quote_label_fresh (sectionalCushions s)).
    rewrite <- Hlab.
    apply list_elem_of_In, (sublist_subseteq _ _ (quote_labels_order s)),
      list_elem_of_In, in_map, Hl.
Qed.

(** C3, at 5000 square feet.  The engine builds the label with the custom
    quote suffix and price 0, and then pushes nothing: the summary is empty
    and equal to the summary of the initial selection, so the custom quote
    condition does not reach the caller. *)
Theorem flea_custom_quote_not_surfaced :
  fleaLabelPrice (pestHomeSqft largeHome)
    = ("Move-Out Flea and Tick (AL only) - custom quote", 0)
  /\ computeQuote largeHome = mkSummary [] 0 0
  /\ computeQuote largeHome = computeQuote initialSelection.
Proof. repeat split. Qed.

(** ** The floor on the total *)

Lemma sumTotals_nonneg ls : Forall (fun l => 0 <= l_total l) ls -> 0 <= sumTotals ls.
Proof.
  induction 1 as [|l ls Hl _ IH].
  - reflexivity.
  - rewrite sumTotals_cons. lia.
Qed.

Lemma Math_round_mul_nonneg a b : 0 <= a -> 0 <= b -> 0 <= Math_round_mul a b.
Proof.
  intros Ha Hb. unfold Math_round_mul, usd.
  assert (0 <= (a * b + 5000) / 10000) by (apply Z.div_pos; nia).
  lia.
Qed.

Lemma addOnLine_nonneg flag lbl qty cap base pct :
  0 <= qty -> 0 <= cap -> 0 <= base -> 0 <= pct ->
  Forall (fun l => 0 <= l_total l) (addOnLine flag lbl qty cap base pct).
Proof.
  intros Hq Hc Hb Hp. unfold addOnLine. destruct flag; repeat constructor.
  cbn [l_total]. pose proof (Math_round_mul_nonneg base pct Hb Hp). nia.
Qed.

Lemma sectionalBase_nonneg s : 0 <= sectionalBase s.
Proof.
  unfold sectionalBase.
  destruct (RATES.sectionalPrices !! sectionalCushions s) as [v|] eqn:Hlook;
    cbn [default]; [|lia].
  apply elem_of_list_to_map_2 in Hlook.
  repeat (apply elem_of_cons in Hlook as [Heq|Hlook];
          [injection Heq as _ ->; unfold id, usd; lia|]).
  by apply elem_of_nil in Hlook.
Qed.

Lemma upholstery_price_nonneg k : 0 <= price (RATES.upholstery k).
Proof. destruct k; cbn; unfold usd; lia. Qed.

Lemma rugs_price_nonneg size pkg : 0 <= RATES.rugs size pkg.
Proof. destruct size, pkg; cbn; unfold usd; lia. Qed.

Lemma carpetLines_nonneg area state :
  (forall k, 0 <= state k) ->
  Forall (fun l => 0 <= l_total l) (carpetLines area state).
Proof.
  intros Hst. apply Forall_flat_map_intro. intros k. unfold carpetLine.
  destruct (state k =? 0); repeat constructor. cbn [l_total].
  pose proof (carpet_price_pos area k). pose proof (Hst k). nia.
Qed.

Lemma rawLines_nonneg s :
  nonNegative s -> Forall (fun l => 0 <= l_total l) (rawLines s).
Proof.
  intros (Hcarpet & _ & Huph & _ & Hsec & Hrug & _).
  unfold rawLines. rewrite !Forall_app. repeat split.
  - apply carpetLines_nonneg, (Hcarpet RATES.rooms).
  - apply carpetLines_nonneg, (Hcarpet RATES.stairs).
  - apply carpetLines_nonneg, (Hcarpet RATES.downHall).
  - apply carpetLines_nonneg, (Hcarpet RATES.upLanding).
  - apply carpetLines_nonneg, (Hcarpet RATES.walkIn).
  - unfold tileLines. destruct (0 <? Z.max 0 (tileTotalSqft s)); repeat constructor.
    cbn [l_total]. unfold RATES.tile_rate. lia.
  - unfold sectionalLines. destruct (0 <? sectionalQty s); [|constructor].
    pose proof (sectionalBase_nonneg s).
    constructor; [cbn [l_total]; nia|].
    apply Forall_app; split; apply addOnLine_nonneg; try done; by vm_compute.
  - apply Forall_flat_map_intro. intros k. unfold uphLine.
    destruct (uphQty s k =? 0); [constructor|].
    pose proof (upholstery_price_nonneg k). pose proof (Huph k).
    constructor; [cbn [l_total]; nia|].
    apply Forall_app; split; apply addOnLine_nonneg; try done; by vm_compute.
  - apply Forall_flat_map_intro. intros size.
    apply Forall_flat_map_intro. intros pkg. unfold rugLine.
    destruct (rugPackages s size pkg =? 0); repeat constructor. cbn [l_total].
    pose proof (rugs_price_nonneg size pkg). pose proof (Hrug size pkg). nia.
  - unfold pestMonthlyLines. destruct (pestMonthly s); repeat constructor. by vm_compute.
  - unfold pestOneTimeLines. destruct (pestOneTime s); repeat constructor. by vm_compute.
  - unfold fleaLines.
    destruct (0 <? pestHomeSqft s), (pestHomeSqft s <=? 1600),
      (pestHomeSqft s <=? 3200); repeat constructor; by vm_compute.
  - unfold zoneLines. destruct (String.eqb (zone s) "extended"); repeat constructor.
    by vm_compute.
Qed.

(** C10.  For non-negative inputs the total of a quote is 0 or at least the
    minimum charge of 135; it is never negative and never strictly between 0
    and the minimum charge. *)
Theorem total_zero_or_minimum (s : Selection) :
  nonNegative s ->
  0 <= q_total (computeQuote s)
  /\ (q_total (computeQuote s) = 0 \/ usd 135 <= q_total (computeQuote s))
  /\ ~ (0 < q_total (computeQuote s) < RATES.minCharge).
Proof.
  intros Hnn.
  pose proof (sumTotals_nonneg _ (rawLines_nonneg s Hnn)) as Hsum.
  rewrite computeQuote_eq.
  change RATES.minCharge with 13500. change (usd 135) with 13500.
  destruct (Z.ltb_spec (sumTotals (rawLines s)) 13500);
    destruct (Z.ltb_spec 0 (sumTotals (rawLines s)));
    cbn [andb q_total]; lia.
Qed.

Lemma total_zero_or_minimum_witness :
  0 <= q_total (computeQuote threeTwins)
  /\ (q_total (computeQuote threeTwins) = 0 \/ usd 135 <= q_total (computeQuote threeTwins))
  /\ ~ (0 < q_total (computeQuote threeTwins) < RATES.minCharge).
Proof.
  apply (total_zero_or_minimum threeTwins).
  unfold nonNegative. split; [intros [] []; cbn; lia|].
  split; [cbn; lia|].
  split; [intros []; cbn; lia|].
  split; [cbn; lia|].
  split; [cbn; lia|].
  split; [intros [] []; cbn; lia|].
  cbn; lia.
Defined.

(** ** Lines of the other categories *)

(** X1.  No line of a quote has quantity 0: the blocks skip a quantity of 0,
    the tile and sectional blocks run for a positive quantity only, and the
    pest, zone and adjustment lines have quantity 1. *)
Theorem quote_no_zero_quantity (s : Selection) :
  Forall (fun l => l_qty l <> 0) (q_lines (computeQuote s)).
Proof.
  assert (Hraw : Forall (fun l => l_qty l <> 0) (rawLines s)).
  { unfold rawLines. rewrite !Forall_app. repeat split.
    1-5: apply Forall_flat_map_intro; intros k; unfold carpetLine;
         match goal with |- context [?q =? 0] => destruct (Z.eqb_spec q 0) end;
         repeat constructor; assumption.
    - unfold tileLines. destruct (Z.ltb_spec 0 (Z.max 0 (tileTotalSqft s)));
        repeat constructor. cbn [l_qty]. lia.
    - unfold sectionalLines, addOnLine.
      destruct (Z.ltb_spec 0 (sectionalQty s)), (sectionalDeo s), (sectionalProt s);
        cbn [app]; repeat constructor; cbn [l_qty]; lia.
    - apply Forall_flat_map_intro; intros k. unfold uphLine, addOnLine.
      destruct (Z.eqb_spec (uphQty s k) 0), (uphDeo s k), (uphProt s k);
        cbn [app]; repeat constructor; assumption.
    - apply Forall_flat_map_intro; intros size.
      apply Forall_flat_map_intro; intros pkg. unfold rugLine.
      destruct (Z.eqb_spec (rugPackages s size pkg) 0); repeat constructor; assumption.
    - unfold pestMonthlyLines. destruct (pestMonthly s); repeat constructor; discriminate.
    - unfold pestOneTimeLines. destruct (pestOneTime s); repeat constructor; discriminate.
    - unfold fleaLines.
      destruct (0 <? pestHomeSqft s), (pestHomeSqft s <=? 1600),
        (pestHomeSqft s <=? 3200); repeat constructor; discriminate.
    - unfold zoneLines. destruct (String.eqb (zone s) "extended");
        repeat constructor; discriminate. }
  rewrite computeQuote_eq.
  destruct ((sumTotals (rawLines s) <? RATES.minCharge) && (0 <? sumTotals (rawLines s)));
    cbn [q_lines]; [|exact Hraw].
  apply Forall_app. split; [exact Hraw|]. repeat constructor. discriminate.
Qed.

(** X2.  The lines of a quote have pairwise distinct labels, and a quote has
    at most 84 lines. *)
Theorem quote_labels_distinct (s : Selection) :
  NoDup (map l_label (q_lines (computeQuote s)))
  /\ (length (q_lines (computeQuote s)) <= 84)%nat.
Proof.
  split; [apply quote_labels_NoDup|].
  pose proof (sublist_length _ _ (quote_labels_order s)) as Hlen.
  rewrite length_map in Hlen.
  replace 84%nat with (length (canonicalOrder (sectionalCushions s))); [exact Hlen|].
  unfold canonicalOrder, rawOrder. rewrite !length_app. reflexivity.
Qed.

Lemma carpetLines_in_raw s area l :
  In l (carpetLines area (carpetState s area)) -> In l (rawLines s).
Proof.
  intros Hl. unfold rawLines. rewrite !in_app_iff.
  destruct area; cbn [carpetState] in Hl; tauto.
Qed.

(** X3.  A carpet pair with a quantity [q] other than 0 has one line in the
    quote, labelled with the package of that area: quantity [q], unit price
    the price of the pair, total [q * price].  A negative [q] is not clamped
    and gives a negative total. *)
Theorem carpet_line_law (s : Selection) (area : RATES.areaType) (k : tier) :
  carpetState s area k <> 0 ->
  forall l,
    In l (q_lines (computeQuote s)) /\ l_label l = label (RATES.carpets area k)
    <-> l = mkLine (label (RATES.carpets area k)) (carpetState s area k)
              (price (RATES.carpets area k))
              (carpetState s area k * price (RATES.carpets area k)).
Proof.
  intros Hq l. apply Z.eqb_neq in Hq.
  apply (quote_line_by_label s (mkLine _ _ _ _)).
  apply (carpetLines_in_raw s area). unfold carpetLines.
  apply in_flat_map. exists k. split; [destruct k; cbn; tauto|].
  unfold carpetLine. rewrite Hq. by left.
Qed.

Lemma carpet_line_law_witness :
  In (mkLine "Standard Steam Clean" 1 (usd 45) (usd 45)) (q_lines (computeQuote oneRoom)).
Proof.
  apply (carpet_line_law oneRoom RATES.rooms standard); [cbn; lia|reflexivity].
Defined.

(** X4.  A rug size and package with a quantity [q] other than 0 has one line
    in the quote, labelled Area Rug, the size label and the package name:
    quantity [q], unit price from the size and package table, total
    [q * price]. *)
Theorem rug_line_law (s : Selection) (size : RATES.rugSize) (pkg : tier) :
  rugPackages s size pkg <> 0 ->
  forall l,
    In l (q_lines (computeQuote s))
    /\ l_label l = "Area Rug " +:+ RATES.rugs_label size +:+ " - " +:+ pkgName pkg
    <-> l = mkLine ("Area Rug " +:+ RATES.rugs_label size +:+ " - " +:+ pkgName pkg)
              (rugPackages s size pkg) (RATES.rugs size pkg)
              (rugPackages s size pkg * RATES.rugs size pkg).
Proof.
  intros Hq l. apply Z.eqb_neq in Hq.
  apply (quote_line_by_label s (mkLine _ _ _ _)).
  unfold rawLines. rewrite !in_app_iff. do 8 right. left.
  apply in_flat_map. exists size. split; [destruct size; cbn; tauto|].
  apply in_flat_map. exists pkg. split; [destruct pkg; cbn; tauto|].
  unfold rugLine. rewrite Hq. by left.
Qed.

Lemma rug_line_law_witness :
  In (mkLine "Area Rug 6x9 to 8x10 - Factory Reset Clean" 2 (usd 112) (usd 224))
     (q_lines (computeQuote twoLargeRugs)).
Proof.
  apply (rug_line_law twoLargeRugs RATES.large reset); [cbn; lia|reflexivity].
Defined.

(** X5.  A positive tile area [t] has one line in the quote: quantity [t],
    unit price 0.50, total [t * 0.50]. *)
Theorem tile_line_law (s : Selection) :
  0 < tileTotalSqft s ->
  forall l,
    In l (q_lines (computeQuote s)) /\ l_label l = "Tile and Grout Cleaning"
    <-> l = mkLine "Tile and Grout Cleaning" (tileTotalSqft s) 50 (tileTotalSqft s * 50).
Proof.
  intros Ht l.
  apply (quote_line_by_label s (mkLine _ _ _ _)).
  unfold rawLines. rewrite !in_app_iff. do 5 right. left.
  unfold tileLines. rewrite Z.max_r by lia.
  apply Z.ltb_lt in Ht. rewrite Ht. by left.
Qed.

Lemma tile_line_law_witness :
  In (mkLine "Tile and Grout Cleaning" 301 50 15050) (q_lines (computeQuote pestAndTile)).
Proof.
  apply (tile_line_law pestAndTile); [cbn; lia|reflexivity].
Defined.

(** X6.  The two general pest control toggles are independent: each one that
    is set has its line, of quantity 1, at 49.99 for the monthly service and
    129.99 for the one-time service. *)
Theorem pest_flat_lines (s : Selection) :
  (pestMonthly s = true ->
   forall l,
     In l (q_lines (computeQuote s))
     /\ l_label l = "Monthly General Pest Control (AL only)"
     <-> l = mkLine "Monthly General Pest Control (AL only)" 1 4999 4999)
  /\ (pestOneTime s = true ->
      forall l,
        In l (q_lines (computeQuote s))
        /\ l_label l = "One-Time General Pest Control (AL only)"
        <-> l = mkLine "One-Time General Pest Control (AL only)" 1 12999 12999).
Proof.
  split; intros Hflag l; apply (quote_line_by_label s (mkLine _ _ _ _));
    unfold rawLines; rewrite !in_app_iff.
  - do 9 right. left. unfold pestMonthlyLines. rewrite Hflag. by left.
  - do 10 right. left. unfold pestOneTimeLines. rewrite Hflag. by left.
Qed.

Lemma pest_flat_lines_witness :
  In (mkLine "Monthly General Pest Control (AL only)" 1 4999 4999)
     (q_lines (computeQuote pestAndTile))
  /\ In (mkLine "One-Time General Pest Control (AL only)" 1 12999 12999)
        (q_lines (computeQuote pestAndTile)).
Proof.
  destruct (pest_flat_lines pestAndTile) as [Hm Ho].
  split; [apply (Hm eq_refl)|apply (Ho eq_refl)]; reflexivity.
Defined.

(** ** The zone fee *)

Lemma rawLines_zone_split s :
  exists before, forall z, rawLines (withZone z s) = before ++ zoneLines (withZone z s).
Proof.
  eexists. intros z. unfold rawLines.
  cbn [withZone carpetRooms carpetStairs downHall upLanding walkIn].
  change (tileLines (withZone z s)) with (tileLines s).
  change (sectionalLines (withZone z s)) with (sectionalLines s).
  change (uphLines (withZone z s)) with (uphLines s).
  change (rugLines (withZone z s)) with (rugLines s).
  change (pestMonthlyLines (withZone z s)) with (pestMonthlyLines s).
  change (pestOneTimeLines (withZone z s)) with (pestOneTimeLines s).
  change (fleaLines (withZone z s)) with (fleaLines s).
  rewrite !app_assoc. reflexivity.
Qed.

(** X7.  The zone fee.  Before the minimum charge step, the extended zone
    adds to the lines of any other zone exactly one last line, Service Zone
    Fee at 45, and 45 to the subtotal; with any zone other than extended no
    line of the quote is a zone fee line. *)
Theorem zone_fee_law (s : Selection) (z : string) :
  z <> "extended" ->
  lines (rawQuote (withZone "extended" s))
    = lines (rawQuote (withZone z s)) ++ [mkLine "Service Zone Fee" 1 (usd 45) (usd 45)]
  /\ sub (rawQuote (withZone "extended" s)) = sub (rawQuote (withZone z s)) + usd 45
  /\ Forall (fun l => l_label l <> "Service Zone Fee")
        (q_lines (computeQuote (withZone z s))).
Proof.
  intros Hz. apply String.eqb_neq in Hz.
  destruct (rawLines_zone_split s) as [before Hsplit].
  pose proof (Hsplit "extended") as Hext. pose proof (Hsplit z) as Hloc.
  unfold zoneLines in Hext, Hloc. cbn [withZone zone] in Hext, Hloc.
  rewrite Hz in Hloc. cbn [String.eqb Ascii.eqb Bool.eqb] in Hext.
  rewrite app_nil_r in Hloc.
  rewrite !rawQuote_eq. cbn [lines sub]. rewrite Hext, Hloc.
  split; [reflexivity|]. split.
  { rewrite sumTotals_app. reflexivity. }
  pose proof (sublist_NoDup _ _ (rawOrder_NoDup _) (rawLines_order (withZone "extended" s)))
    as Hnd.
  rewrite Hext, map_app in Hnd. apply NoDup_app in Hnd as (_ & Hdis & _).
  assert (Hraw : Forall (fun l => l_label l <> "Service Zone Fee") before).
  { apply Forall_forall. intros l Hl Hlab.
    apply (Hdis (l_label l)).
    - apply list_elem_of_In, in_map, list_elem_of_In, Hl.
    - rewrite Hlab. constructor. }
  rewrite computeQuote_eq, Hloc.
  destruct ((sumTotals before <? RATES.minCharge) && (0 <? sumTotals before));
    cbn [q_lines]; [|exact Hraw].
  apply Forall_app. split; [exact Hraw|]. repeat constructor. discriminate.
Qed.

Lemma zone_fee_law_witness :
  lines (rawQuote (withZone "extended" oneRoom))
    = lines (rawQuote (withZone "local" oneRoom))
      ++ [mkLine "Service Zone Fee" 1 (usd 45) (usd 45)]
  /\ sub (rawQuote (withZone "extended" oneRoom))
     = sub (rawQuote (withZone "local" oneRoom)) + usd 45.
Proof.
  destruct (zone_fee_law oneRoom "local") as (Hl & Hs & _); [discriminate|].
  split; [exact Hl|exact Hs].
Defined.

(** ** The subtotal in closed form *)

Lemma sumTotals_flat_map {K} (f : K -> list LineItem) ks :
  sumTotals (flat_map f ks) = sumOver ks (fun k => sumTotals (f k)).
Proof.
  induction ks as [|k ks IH]; cbn [flat_map sumOver fold_right]; [reflexivity|].
  rewrite sumTotals_app, IH. reflexivity.
Qed.

Lemma sumOver_ext {K} (f g : K -> Z) ks :
  (forall k, f k = g k) -> sumOver ks f = sumOver ks g.
Proof.
  intros Hfg. induction ks as [|k ks IH]; cbn [sumOver fold_right]; [reflexivity|].
  fold (sumOver ks f). fold (sumOver ks g). by rewrite Hfg, IH.
Qed.

Lemma sumOver_le {K} (f g : K -> Z) ks :
  (forall k, f k <= g k) -> sumOver ks f <= sumOver ks g.
Proof.
  intros Hfg. induction ks as [|k ks IH]; cbn [sumOver fold_right]; [lia|].
  fold (sumOver ks f). fold (sumOver ks g). pose proof (Hfg k). lia.
Qed.

Lemma sumTotals_one l : sumTotals [l] = l_total l.
Proof. unfold sumTotals, sumFrom. cbn [fold_left]. lia. Qed.

Lemma sumTotals_addOnLine flag lbl qty cap base pct :
  sumTotals (addOnLine flag lbl qty cap base pct) = addOnAmount flag cap base pct * qty.
Proof.
  unfold addOnLine, addOnAmount. destruct flag; [apply sumTotals_one|reflexivity].
Qed.

Lemma sumTotals_carpetLines area state :
  sumTotals (carpetLines area state)
  = sumOver packageOrder (fun k => state k * price (RATES.carpets area k)).
Proof.
  unfold carpetLines. rewrite sumTotals_flat_map. apply sumOver_ext. intros k.
  unfold carpetLine. destruct (Z.eqb_spec (state k) 0) as [->|_];
    [reflexivity|apply sumTotals_one].
Qed.

Lemma sumTotals_rawLines s : sumTotals (rawLines s) = subtotalFormula s.
Proof.
  unfold rawLines, subtotalFormula. rewrite !sumTotals_app, !sumTotals_carpetLines.
  cbn [sumOver areaOrder fold_right carpetState].
  replace (sumTotals (tileLines s)) with (Z.max 0 (tileTotalSqft s) * 50).
  2:{ unfold tileLines. destruct (Z.ltb_spec 0 (Z.max 0 (tileTotalSqft s)));
        [symmetry; apply sumTotals_one|]. cbn. lia. }
  replace (sumTotals (sectionalLines s))
    with (Z.max 0 (sectionalQty s)
          * (sectionalBase s
             + addOnAmount (sectionalDeo s) (usd 20) (sectionalBase s) 15
             + addOnAmount (sectionalProt s) (usd 50) (sectionalBase s) 20)).
  2:{ unfold sectionalLines. destruct (Z.ltb_spec 0 (sectionalQty s)).
      - rewrite sumTotals_cons, sumTotals_app, !sumTotals_addOnLine.
        cbn [l_total]. unfold deoCap, fabricCap, deoPct, fabricPct,
          RATES.deodorizerCap, RATES.fabricProtectorCap, RATES.deodorizerPct,
          RATES.fabricProtectorPct. lia.
      - rewrite Z.max_l by lia. reflexivity. }
  replace (sumTotals (uphLines s))
    with (sumOver uphKeys (fun k =>
            uphQty s k
            * (price (RATES.upholstery k)
               + addOnAmount (uphDeo s k) (usd 20) (price (RATES.upholstery k)) 15
               + addOnAmount (uphProt s k) (usd 50) (price (RATES.upholstery k)) 20))).
  2:{ unfold uphLines. rewrite sumTotals_flat_map. apply sumOver_ext. intros k.
      unfold uphLine. destruct (Z.eqb_spec (uphQty s k) 0) as [->|_]; [reflexivity|].
      rewrite sumTotals_cons, sumTotals_app, !sumTotals_addOnLine.
      cbn [l_total]. unfold deoCap, fabricCap, deoPct, fabricPct,
        RATES.deodorizerCap, RATES.fabricProtectorCap, RATES.deodorizerPct,
        RATES.fabricProtectorPct. lia. }
  replace (sumTotals (rugLines s))
    with (sumOver rugSizes (fun size =>
            sumOver packageOrder (fun pkg => rugPackages s size pkg * RATES.rugs size pkg))).
  2:{ unfold rugLines. rewrite sumTotals_flat_map. apply sumOver_ext. intros size.
      rewrite sumTotals_flat_map. apply sumOver_ext. intros pkg.
      unfold rugLine. destruct (Z.eqb_spec (rugPackages s size pkg) 0) as [->|_];
        [reflexivity|symmetry; apply sumTotals_one]. }
  replace (sumTotals (pestMonthlyLines s)) with (if pestMonthly s then 4999 else 0)
    by (unfold pestMonthlyLines; by destruct (pestMonthly s)).
  replace (sumTotals (pestOneTimeLines s)) with (if pestOneTime s then 12999 else 0)
    by (unfold pestOneTimeLines; by destruct (pestOneTime s)).
  replace (sumTotals (fleaLines s)) with (fleaPrice (pestHomeSqft s)).
  2:{ unfold fleaLines, fleaPrice.
      by destruct (0 <? pestHomeSqft s), (pestHomeSqft s <=? 1600),
        (pestHomeSqft s <=? 3200). }
  replace (sumTotals (zoneLines s))
    with (if String.eqb (zone s) "extended" then usd 45 else 0)
    by (unfold zoneLines; by destruct (String.eqb (zone s) "extended")).
  unfold sectionalBase. lia.
Qed.


(** ** Adding to a selection *)

Lemma addOnAmount_nonneg flag cap base pct :
  0 <= cap -> 0 <= base -> 0 <= pct -> 0 <= addOnAmount flag cap base pct.
Proof.
  intros Hc Hb Hp. unfold addOnAmount. destruct flag; [|lia].
  pose proof (Math_round_mul_nonneg base pct Hb Hp). lia.
Qed.

Lemma addOnAmount_mono (f1 f2 : bool) cap base pct :
  (f1 = true -> f2 = true) -> 0 <= cap -> 0 <= base -> 0 <= pct ->
  addOnAmount f1 cap base pct <= addOnAmount f2 cap base pct.
Proof.
  intros Hf Hc Hb Hp. destruct f1.
  - rewrite (Hf eq_refl). lia.
  - apply addOnAmount_nonneg; assumption.
Qed.

Lemma subtotalFormula_nonneg s : nonNegative s -> 0 <= subtotalFormula s.
Proof.
  intros Hnn. rewrite <- sumTotals_rawLines.
  apply sumTotals_nonneg, rawLines_nonneg, Hnn.
Qed.

Lemma subtotalFormula_mono s1 s2 :
  nonNegative s1 -> addsTo s1 s2 -> subtotalFormula s1 <= subtotalFormula s2.
Proof.
  intros (Hc1 & _ & Hu1 & _ & _ & Hr1 & _)
    (Hc & Ht & Hu & Hud & Hup & Hcu & Hsq & Hsd & Hsp & Hr & Hm & Ho & Hf & Hz).
  unfold subtotalFormula. rewrite <- Hcu, <- Hf.
  pose proof (sectionalBase_nonneg s1) as Hbase. unfold sectionalBase in Hbase.
  match goal with
  | |- ?c1 + ?t1 + ?q1 + ?u1 + ?r1 + ?m1 + ?o1 + ?f1 + ?z1
       <= ?c2 + ?t2 + ?q2 + ?u2 + ?r2 + ?m2 + ?o2 + ?f2 + ?z2 =>
      assert (c1 <= c2 /\ t1 <= t2 /\ q1 <= q2 /\ u1 <= u2 /\ r1 <= r2
              /\ m1 <= m2 /\ o1 <= o2 /\ z1 <= z2) as Hterms; [|lia]
  end.
  repeat apply conj.
  - apply sumOver_le. intros area. apply sumOver_le. intros k.
    apply Z.mul_le_mono_nonneg_r; [pose proof (carpet_price_pos area k); lia|apply Hc].
  - lia.
  - apply Z.mul_le_mono_nonneg; [lia|lia| |].
    + pose proof (addOnAmount_nonneg (sectionalDeo s1) (usd 20) _ 15
                    ltac:(done) Hbase ltac:(done)).
      pose proof (addOnAmount_nonneg (sectionalProt s1) (usd 50) _ 20
                    ltac:(done) Hbase ltac:(done)).
      lia.
    + pose proof (addOnAmount_mono _ _ (usd 20) _ 15 Hsd ltac:(done) Hbase ltac:(done)).
      pose proof (addOnAmount_mono _ _ (usd 50) _ 20 Hsp ltac:(done) Hbase ltac:(done)).
      lia.
  - apply sumOver_le. intros k.
    pose proof (upholstery_price_nonneg k) as Hp.
    apply Z.mul_le_mono_nonneg; [apply Hu1|apply Hu| |].
    + pose proof (addOnAmount_nonneg (uphDeo s1 k) (usd 20) _ 15
                    ltac:(done) Hp ltac:(done)).
      pose proof (addOnAmount_nonneg (uphProt s1 k) (usd 50) _ 20
                    ltac:(done) Hp ltac:(done)).
      lia.
    + pose proof (addOnAmount_mono _ _ (usd 20) _ 15 (Hud k) ltac:(done) Hp ltac:(done)).
      pose proof (addOnAmount_mono _ _ (usd 50) _ 20 (Hup k) ltac:(done) Hp ltac:(done)).
      lia.
  - apply sumOver_le. intros size. apply sumOver_le. intros pkg.
    apply Z.mul_le_mono_nonneg_r; [apply rugs_price_nonneg|apply Hr].
  - destruct (pestMonthly s1); [rewrite (Hm eq_refl); lia|].
    destruct (pestMonthly s2); lia.
  - destruct (pestOneTime s1); [rewrite (Ho eq_refl); lia|].
    destruct (pestOneTime s2); lia.
  - destruct (String.eqb_spec (zone s1) "extended") as [He|_].
    + rewrite (Hz He). cbn. lia.
    + destruct (String.eqb (zone s2) "extended"); unfold usd; lia.
Qed.

(** X9.  Adding to a selection never lowers the total.  When the quantities
    of [s1] are non-negative and [s2] has no lower quantity, no flag or toggle
    cleared, the same cushion count and home square footage, and the extended
    zone if [s1] has it, the total of [s2] is at least the total of [s1]. *)
Theorem quote_monotone (s1 s2 : Selection) :
  nonNegative s1 -> addsTo s1 s2 ->
  q_total (computeQuote s1) <= q_total (computeQuote s2).
Proof.
  intros Hnn Hle.
  pose proof (subtotalFormula_nonneg s1 Hnn) as H1.
  pose proof (subtotalFormula_mono s1 s2 Hnn Hle) as H12.
  rewrite !computeQuote_eq, !sumTotals_rawLines.
  change RATES.minCharge with 13500.
  destruct (Z.ltb_spec (subtotalFormula s1) 13500), (Z.ltb_spec 0 (subtotalFormula s1)),
    (Z.ltb_spec (subtotalFormula s2) 13500), (Z.ltb_spec 0 (subtotalFormula s2));
    cbn [andb q_total]; lia.
Qed.

Lemma quote_monotone_witness :
  q_total (computeQuote threeTwins) <= q_total (computeQuote roomAndTwins).
Proof.
  apply (quote_monotone threeTwins roomAndTwins).
  - unfold nonNegative. split; [intros [] []; cbn; lia|].
    split; [cbn; lia|].
    split; [intros []; cbn; lia|].
    split; [cbn; lia|].
    split; [cbn; lia|].
    split; [intros [] []; cbn; lia|].
    cbn; lia.
  - unfold addsTo. split; [intros [] []; cbn; lia|].
    split; [cbn; lia|].
    split; [intros []; cbn; lia|].
    split; [intros []; cbn; tauto|].
    split; [intros []; cbn; tauto|].
    split; [reflexivity|].
    split; [cbn; lia|].
    split; [cbn; tauto|].
    split; [cbn; tauto|].
    split; [intros [] []; cbn; lia|].
    split; [cbn; tauto|].
    split; [cbn; tauto|].
    split; [reflexivity|].
    cbn; tauto.
Defined.

(** ** Inputs the engine ignores *)

Lemma computeQuote_rawLines_ext s1 s2 :
  rawLines s1 = rawLines s2 -> computeQuote s1 = computeQuote s2.
Proof. intros Heq. by rewrite !computeQuote_eq, Heq. Qed.

(** X10.  A tile area, a sectional quantity or a home square footage that is
    0 or negative counts as nothing entered: the summary is the one for the
    value 0, and with no sectional quantity the cushion count and the two
    sectional add-on flags have no effect. *)
Theorem nonpositive_inputs_ignored (s : Selection) :
  (tileTotalSqft s <= 0 -> computeQuote s = computeQuote (withTile 0 s))
  /\ (sectionalQty s <= 0 ->
      forall cushions deo prot,
        computeQuote s = computeQuote (withSectional cushions 0 deo prot s))
  /\ (pestHomeSqft s <= 0 -> computeQuote s = computeQuote (withPestHomeSqft 0 s)).
Proof.
  split; [|split].
  - intros Ht. apply computeQuote_rawLines_ext. unfold rawLines.
    replace (tileLines s) with (@nil LineItem); [reflexivity|].
    unfold tileLines. rewrite Z.max_l by lia. reflexivity.
  - intros Hq cushions deo prot. apply computeQuote_rawLines_ext. unfold rawLines.
    replace (sectionalLines s) with (@nil LineItem); [reflexivity|].
    unfold sectionalLines. destruct (Z.ltb_spec 0 (sectionalQty s)); [lia|reflexivity].
  - intros Hf. apply computeQuote_rawLines_ext. unfold rawLines.
    replace (fleaLines s) with (@nil LineItem); [reflexivity|].
    unfold fleaLines. destruct (Z.ltb_spec 0 (pestHomeSqft s)); [lia|reflexivity].
Qed.

Lemma nonpositive_inputs_ignored_witness :
  computeQuote (withTile (-40) oneRoom) = computeQuote (withTile 0 (withTile (-40) oneRoom))
  /\ computeQuote flagsOnly = computeQuote (withSectional 6 0 false false flagsOnly).
Proof.
  split.
  - apply (nonpositive_inputs_ignored (withTile (-40) oneRoom)). cbn. lia.
  - apply (nonpositive_inputs_ignored flagsOnly). cbn. lia.
Defined.

(** X11.  The add-on flags of an upholstery item whose quantity is 0 have no
    effect: two selections that differ only in the flags of such items have
    the same summary. *)
Theorem addon_flags_need_quantity (s : Selection) (deo prot : RATES.uphKey -> bool) :
  (forall k, uphQty s k <> 0 -> deo k = uphDeo s k /\ prot k = uphProt s k) ->
  computeQuote (withUph (uphQty s) deo prot s) = computeQuote s.
Proof.
  intros Hflags. apply computeQuote_rawLines_ext. unfold rawLines.
  replace (uphLines (withUph (uphQty s) deo prot s)) with (uphLines s); [reflexivity|].
  unfold uphLines. apply flat_map_ext. intros k.
  unfold uphLine. cbn [withUph uphQty uphDeo uphProt].
  destruct (Z.eqb_spec (uphQty s k) 0) as [_|Hq]; [reflexivity|].
  destruct (Hflags k Hq) as [-> ->]. reflexivity.
Qed.

Lemma addon_flags_need_quantity_witness :
  computeQuote (withUph (uphQty initialSelection) (fun _ => true) (fun _ => true)
                  initialSelection)
  = computeQuote initialSelection.
Proof.
  apply (addon_flags_need_quantity initialSelection).
  intros k Hq. cbn in Hq. lia.
Defined.

(** ** Amounts as text *)

Lemma append_nil_l (v : string) : "" +:+ v = v.
Proof. reflexivity. Qed.

Lemma append_cons a (u v : string) : String a u +:+ v = String a (u +:+ v).
Proof. reflexivity. Qed.

Ltac append_norm := repeat first [rewrite append_cons | rewrite append_nil_l].
Ltac append_norm_in H :=
  repeat first [rewrite append_cons in H | rewrite append_nil_l in H].

Lemma append_assoc (u v w : string) : (u +:+ v) +:+ w = u +:+ (v +:+ w).
Proof.
  induction u as [|a u IH]; append_norm; [reflexivity|by rewrite IH].
Qed.









(** ** The lines of the quote text *)

Lemma noNewline_app u v : noNewline (u +:+ v) = noNewline u && noNewline v.
Proof.
  induction u as [|a u IH]; append_norm; cbn [noNewline]; [reflexivity|].
  by rewrite IH, andb_assoc.
Qed.

Lemma noNewline_uint d : noNewline (NilEmpty.string_of_uint d) = true.
Proof. induction d; cbn [NilEmpty.string_of_uint noNewline]; try rewrite IHd; reflexivity. Qed.

Lemma noNewline_string_of_Z z : noNewline (string_of_Z z) = true.
Proof.
  unfold string_of_Z. destruct z as [|p|p]; [reflexivity| |];
    cbn [Z.to_int NilZero.string_of_int noNewline]; unfold NilZero.string_of_uint;
    destruct (Pos.to_uint p) eqn:Hp; try reflexivity; rewrite <- Hp;
    cbn [negb andb]; try apply noNewline_uint.
Qed.

Lemma noNewline_fmt c : noNewline (fmt c) = true.
Proof.
  unfold fmt, toFixed2. rewrite !noNewline_app, !noNewline_string_of_Z.
  by destruct (c <? 0).
Qed.

Lemma canonicalOrder_noNewline c : forallb noNewline (canonicalOrder c) = true.
Proof.
  unfold canonicalOrder, rawOrder. rewrite !forallb_app. cbn [forallb].
  unfold sectionalLabel. rewrite !noNewline_app, noNewline_string_of_Z.
  reflexivity.
Qed.

Lemma lineText_noNewline s l :
  In l (q_lines (computeQuote s)) -> noNewline (lineText l) = true.
Proof.
  intros Hl.
  assert (Hlab : noNewline (l_label l) = true).
  { pose proof (canonicalOrder_noNewline (sectionalCushions s)) as Hall.
    rewrite forallb_forall in Hall. apply Hall.
    apply list_elem_of_In, (sublist_subseteq _ _ (quote_labels_order s)),
      list_elem_of_In, in_map, Hl. }
  unfold lineText. cbv zeta.
  rewrite !noNewline_app, Hlab, noNewline_string_of_Z, !noNewline_fmt. reflexivity.
Qed.

Lemma splitLines_line u v :
  noNewline u = true -> splitLines (u +:+ nl +:+ v) = u :: splitLines v.
Proof.
  induction u as [|a u IH]; intros Hu; append_norm.
  - unfold nl. append_norm. reflexivity.
  - cbn [noNewline] in Hu. apply andb_true_iff in Hu as [Ha Hu].
    cbn [splitLines]. apply negb_true_iff in Ha. rewrite Ha.
    assert (Hrest : splitLines (u +:+ nl +:+ v) = u :: splitLines v) by (by apply IH).
    unfold nl in Hrest. append_norm_in Hrest. unfold nl. append_norm.
    by rewrite Hrest.
Qed.

Lemma splitLines_last u : noNewline u = true -> splitLines u = [u].
Proof.
  induction u as [|a u IH]; intros Hu; [reflexivity|].
  cbn [noNewline] in Hu. apply andb_true_iff in Hu as [Ha Hu].
  cbn [splitLines]. apply negb_true_iff in Ha. by rewrite Ha, IH.
Qed.

Lemma splitLines_concat ls rest :
  forallb noNewline ls = true ->
  splitLines (String.concat nl ls +:+ nl +:+ rest)
  = match ls with [] => [EmptyString] | _ => ls end ++ splitLines rest.
Proof.
  induction ls as [|x ls IH]; intros Hls.
  - cbn [String.concat app]. by rewrite (splitLines_line "" rest).
  - cbn [forallb] in Hls. apply andb_true_iff in Hls as [Hx Hls].
    destruct ls as [|y ls].
    + cbn [String.concat app]. by rewrite splitLines_line.
    + change (String.concat nl (x :: y :: ls))
        with (x +:+ nl +:+ String.concat nl (y :: ls)).
      rewrite !append_assoc, splitLines_line by exact Hx.
      rewrite (IH Hls). reflexivity.
Qed.

(** X13.  Read line by line, the quote text is the title, one line per line
    of the summary in the order of the summary (one empty line when the
    summary has none), the total, and the contact block and the closing
    sentence, provided the five contact fields hold no line break: no label
    and no amount of the engine holds one. *)
Theorem quote_text_lines (s : Selection)
    (customerName customerPhone customerEmail address zip : string) :
  noNewline customerName = true -> noNewline customerPhone = true ->
  noNewline customerEmail = true -> noNewline address = true ->
  noNewline zip = true ->
  splitLines
    (buildQuoteText (computeQuote s) customerName customerPhone customerEmail
       address zip)
  = ["Jet Stream Clean - Quote"]
    ++ match q_lines (computeQuote s) with
       | [] => [EmptyString]
       | ls => map lineText ls
       end
    ++ [ "TOTAL: " +:+ fmt (q_total (computeQuote s));
         EmptyString;
         "CUSTOMER INFORMATION:";
         "Name: " +:+ customerName;
         "Phone: " +:+ customerPhone;
         "Email: " +:+ customerEmail;
         "Address: " +:+ address +:+ ", " +:+ zip;
         EmptyString;
         "This quote is an estimate. Minimum charge $135 applies." ].
Proof.
  intros Hn Hp He Ha Hz.
  assert (Hlines : forallb noNewline (map lineText (q_lines (computeQuote s))) = true).
  { apply forallb_forall. intros x Hx. apply in_map_iff in Hx as (l & <- & Hl).
    by apply (lineText_noNewline s). }
  set (summary := computeQuote s) in *.
  transitivity
    (splitLines
       ("Jet Stream Clean - Quote" +:+ nl
        +:+ (String.concat nl (map lineText (q_lines summary)) +:+ nl
        +:+ (("TOTAL: " +:+ fmt (q_total summary)) +:+ nl
        +:+ (EmptyString +:+ nl
        +:+ ("CUSTOMER INFORMATION:" +:+ nl
        +:+ (("Name: " +:+ customerName) +:+ nl
        +:+ (("Phone: " +:+ customerPhone) +:+ nl
        +:+ (("Email: " +:+ customerEmail) +:+ nl
        +:+ (("Address: " +:+ address +:+ ", " +:+ zip) +:+ nl
        +:+ (EmptyString +:+ nl
        +:+ "This quote is an estimate. Minimum charge $135 applies."))))))))))).
  { f_equal. unfold buildQuoteText. cbv zeta. rewrite !append_assoc. reflexivity. }
  rewrite splitLines_line by reflexivity.
  rewrite splitLines_concat by exact Hlines.
  rewrite splitLines_line by (rewrite noNewline_app, noNewline_fmt; reflexivity).
  rewrite splitLines_line by reflexivity.
  rewrite splitLines_line by reflexivity.
  rewrite splitLines_line by (rewrite noNewline_app, Hn; reflexivity).
  rewrite splitLines_line by (rewrite noNewline_app, Hp; reflexivity).
  rewrite splitLines_line by (rewrite noNewline_app, He; reflexivity).
  rewrite splitLines_line by (rewrite !noNewline_app, Ha, Hz; reflexivity).
  rewrite splitLines_line by reflexivity.
  rewrite splitLines_last by reflexivity.
  cbn [app]. f_equal. f_equal.
  destruct (q_lines summary); reflexivity.
Qed.

Lemma quote_text_lines_witness :
  splitLines
    (buildQuoteText (computeQuote oneRoom) "Ada" "555 0100" "ada@example.com"
       "1 Main St" "41017")
  = [ "Jet Stream Clean - Quote";
      "Standard Steam Clean - 1 x $45.00 = $45.00";
      "Minimum Charge Adjustment - 1 x $90.00 = $90.00";
      "TOTAL: $135.00";
      EmptyString;
      "CUSTOMER INFORMATION:";
      "Name: Ada";
      "Phone: 555 0100";
      "Email: ada@example.com";
      "Address: 1 Main St, 41017";
      EmptyString;
      "This quote is an estimate. Minimum charge $135 applies." ].
Proof.
  apply (quote_text_lines oneRoom "Ada" "555 0100" "ada@example.com" "1 Main St" "41017");
    reflexivity.
Defined.

(** ** The states of the form *)

Lemma carpetState_withCarpetState area q s area' :
  carpetState (withCarpetState area q s) area'
  = if decide (area' = area) then q else carpetState s area'.
Proof. by destruct area, area'. Qed.

Lemma initialSelection_wellFormed : wellFormed initialSelection.
Proof.
  unfold wellFormed, nonNegative. split; [|split; [cbn; lia|by left]].
  split; [intros [] []; cbn; lia|].
  split; [cbn; lia|].
  split; [intros []; cbn; lia|].
  split; [cbn; lia|].
  split; [cbn; lia|].
  split; [intros [] []; cbn; lia|].
  cbn; lia.
Qed.

(** A component the handler leaves as it is. *)
Ltac keep H :=
  first [ apply H
        | match goal with
          | |- context [withCarpetState ?area _ _] => destruct area; apply H
          end ].

Lemma handle_wellFormed st e st' :
  wellFormed (selection st) -> handle st e = Some st' -> wellFormed (selection st').
Proof.
  intros ((Hc & Ht & Hu & Hcu & Hsq & Hr & Hf) & Hrange & Hzone) Hstep.
  unfold wellFormed, nonNegative.
  destruct e; cbn [handle] in Hstep;
    try (destruct v as [n|]; cbn [mbind option_bind] in Hstep; [|discriminate Hstep]);
    injection Hstep as <-; cbn [selection onSelection];
    (split;
     [split; [try (intros; apply Hc)
             |split; [try keep Ht
                     |split; [try (intros; keep Hu)
                             |split; [try keep Hcu
                                     |split; [try keep Hsq
                                             |split; [try (intros; keep Hr)
                                                     |try keep Hf]]]]]]
     |split; [try keep Hrange|try keep Hzone]]);
    try (cbn [withTile withSectional withPestHomeSqft tileTotalSqft sectionalCushions
              sectionalQty pestHomeSqft]; lia);
    try (by left); try (by right).
  - (* CarpetMinus *)
    intros area' k'. rewrite carpetState_withCarpetState.
    destruct (decide (area' = selectedCarpetType st)); [|apply Hc].
    unfold setKey. destruct (decide (k' = k)); [lia|apply Hc].
  - (* CarpetInput *)
    intros area' k'. rewrite carpetState_withCarpetState.
    destruct (decide (area' = selectedCarpetType st)); [|apply Hc].
    unfold setKey. destruct (decide (k' = k)); [lia|apply Hc].
  - (* CarpetPlus *)
    intros area' k'. rewrite carpetState_withCarpetState.
    destruct (decide (area' = selectedCarpetType st)); [|apply Hc].
    unfold setKey. destruct (decide (k' = k)); [|apply Hc].
    pose proof (Hc (selectedCarpetType st) k). lia.
  - (* UphMinus *)
    intros k'. cbn [withUph uphQty]. unfold setKey.
    destruct (decide (k' = k)); [lia|apply Hu].
  - (* UphInput *)
    intros k'. cbn [withUph uphQty]. unfold setKey.
    destruct (decide (k' = k)); [lia|apply Hu].
  - (* UphPlus *)
    intros k'. cbn [withUph uphQty]. unfold setKey.
    destruct (decide (k' = k)); [pose proof (Hu k); lia|apply Hu].
  - (* RugMinus *)
    intros size' pkg'. cbn [withRugs rugPackages]. unfold setKey.
    destruct (decide (size' = selectedRugSize st)); [|apply Hr].
    destruct (decide (pkg' = pkg)); [lia|apply Hr].
  - (* RugInput *)
    intros size' pkg'. cbn [withRugs rugPackages]. unfold setKey.
    destruct (decide (size' = selectedRugSize st)); [|apply Hr].
    destruct (decide (pkg' = pkg)); [lia|apply Hr].
  - (* RugPlus *)
    intros size' pkg'. cbn [withRugs rugPackages]. unfold setKey.
    destruct (decide (size' = selectedRugSize st)); [|apply Hr].
    destruct (decide (pkg' = pkg)); [|apply Hr].
    pose proof (Hr (selectedRugSize st) pkg). lia.
Qed.

(** The example state is the result of four events on the initial state. *)
Lemma formExample_reachable : afterFourEvents = Some formExample /\ reachable formExample.
Proof.
  split; [reflexivity|].
  eapply reachable_step with (e := SectionalDeoCheck true);
    [eapply reachable_step with (e := SectionalPlus);
     [eapply reachable_step with (e := CushionsInput (Some 20));
      [eapply reachable_step with (e := CarpetPlus standard);
       [apply reachable_init|reflexivity]
      |reflexivity]
     |reflexivity]
    |reflexivity].
Qed.

Lemma reachable_invariant (st : AppState) : reachable st -> wellFormed (selection st).
Proof.
  induction 1 as [|st e st' _ IH Hstep].
  - apply initialSelection_wellFormed.
  - apply (handle_wellFormed st e st' IH Hstep).
Qed.

(** X14.  Every state the form can reach from its initial state through its
    handlers, as long as no number field delivers [NaN], has non-negative
    quantities, tile area and home square footage, a cushion count from 4 to
    12, and the zone local or extended. *)
Theorem reachable_wellFormed (st : AppState) :
  reachable st -> wellFormed (selection st).
Proof.
  intros Hreach. induction Hreach as [|st e st' _ IH Hstep].
  - unfold wellFormed, nonNegative. split; [|split; [cbn; lia|by left]].
    split; [intros [] []; cbn; lia|].
    split; [cbn; lia|].
    split; [intros []; cbn; lia|].
    split; [cbn; lia|].
    split; [cbn; lia|].
    split; [intros [] []; cbn; lia|].
    cbn; lia.
  - exact (handle_wellFormed st e st' IH Hstep).
Qed.

Lemma reachable_wellFormed_witness : wellFormed (selection formExample).
Proof. apply (reachable_wellFormed formExample), formExample_reachable. Defined.

(** ** Quotes of the states of the form *)

Lemma sectionalPrices_hit c :
  4 <= c <= 12 ->
  exists b,
    RATES.sectionalPrices !! c = Some b
    /\ usd 140 <= b <= usd 485
    /\ 0 < Z.min deoCap (Math_round_mul b deoPct)
    /\ 0 < Z.min fabricCap (Math_round_mul b fabricPct).
Proof.
  intros Hc.
  assert (c = 4 \/ c = 5 \/ c = 6 \/ c = 7 \/ c = 8 \/ c = 9 \/ c = 10 \/ c = 11
          \/ c = 12) as Hcases by lia.
  repeat (destruct Hcases as [->|Hcases];
          [eexists; split; [reflexivity|by vm_compute]|]).
  subst c. eexists. split; [reflexivity|by vm_compute].
Qed.

Lemma Forall_flat_map_in {K} (P : LineItem -> Prop) (f : K -> list LineItem) ks :
  (forall k, In k ks -> Forall P (f k)) -> Forall P (flat_map f ks).
Proof.
  intros Hk. induction ks as [|k ks IH]; cbn [flat_map]; [constructor|].
  apply Forall_app. split; [apply Hk; by left|].
  apply IH. intros k' Hk'. apply Hk. by right.
Qed.

Lemma carpetLines_positive area state :
  (forall k, 0 <= state k) -> Forall linePositive (carpetLines area state).
Proof.
  intros Hst. apply Forall_flat_map_intro. intros k. unfold carpetLine.
  destruct (Z.eqb_spec (state k) 0); repeat constructor; cbn [l_qty l_each l_total];
    pose proof (carpet_price_pos area k); pose proof (Hst k); nia.
Qed.

Lemma upholstery_positive k :
  In k uphKeys ->
  0 < price (RATES.upholstery k)
  /\ 0 < Z.min deoCap (Math_round_mul (price (RATES.upholstery k)) deoPct)
  /\ 0 < Z.min fabricCap (Math_round_mul (price (RATES.upholstery k)) fabricPct).
Proof.
  intros Hk. cbn [uphKeys In] in Hk.
  repeat (destruct Hk as [<-|Hk]; [by vm_compute|]). destruct Hk.
Qed.

Lemma rawLines_positive s : wellFormed s -> Forall linePositive (rawLines s).
Proof.
  intros ((Hc & _ & Hu & _ & _ & Hr & _) & Hrange & _).
  unfold rawLines. rewrite !Forall_app. repeat split.
  - apply carpetLines_positive, (Hc RATES.rooms).
  - apply carpetLines_positive, (Hc RATES.stairs).
  - apply carpetLines_positive, (Hc RATES.downHall).
  - apply carpetLines_positive, (Hc RATES.upLanding).
  - apply carpetLines_positive, (Hc RATES.walkIn).
  - unfold tileLines. destruct (Z.ltb_spec 0 (Z.max 0 (tileTotalSqft s)));
      repeat constructor; cbn [l_qty l_each l_total]; unfold RATES.tile_rate; lia.
  - unfold sectionalLines, addOnLine, sectionalBase.
    destruct (sectionalPrices_hit _ Hrange) as (b & -> & Hb & Hdeo & Hprot).
    cbn [default]. unfold usd in Hb.
    destruct (Z.ltb_spec 0 (sectionalQty s)); [|constructor].
    destruct (sectionalDeo s), (sectionalProt s); cbn [app];
      repeat constructor; cbn [l_qty l_each l_total]; unfold id; nia.
  - apply Forall_flat_map_in. intros k Hk. unfold uphLine, addOnLine.
    destruct (upholstery_positive k Hk) as (Hp & Hdeo & Hprot).
    pose proof (Hu k).
    destruct (Z.eqb_spec (uphQty s k) 0); [constructor|].
    destruct (uphDeo s k), (uphProt s k); cbn [app];
      repeat constructor; cbn [l_qty l_each l_total]; nia.
  - apply Forall_flat_map_intro. intros size.
    apply Forall_flat_map_intro. intros pkg. unfold rugLine.
    pose proof (Hr size pkg).
    assert (0 < RATES.rugs size pkg) by (by destruct size, pkg).
    destruct (Z.eqb_spec (rugPackages s size pkg) 0); repeat constructor;
      cbn [l_qty l_each l_total]; nia.
  - unfold pestMonthlyLines. destruct (pestMonthly s); repeat constructor.
  - unfold pestOneTimeLines. destruct (pestOneTime s); repeat constructor.
  - unfold fleaLines.
    destruct (0 <? pestHomeSqft s), (pestHomeSqft s <=? 1600),
      (pestHomeSqft s <=? 3200); repeat constructor.
  - unfold zoneLines. destruct (String.eqb (zone s) "extended"); repeat constructor.
Qed.

Lemma sumTotals_positive ls :
  Forall linePositive ls -> ls <> [] -> 0 < sumTotals ls.
Proof.
  intros Hall Hne. destruct Hall as [|l ls (_ & _ & Hl) Hls]; [done|].
  rewrite sumTotals_cons.
  assert (0 <= sumTotals ls); [|lia].
  apply sumTotals_nonneg. eapply Forall_impl; [exact Hls|].
  intros l' (_ & _ & Hl'). lia.
Qed.

(** X15.  In every state the form can reach (no [NaN] delivered), every line
    of the quote has a positive quantity, unit price and total, and the quote
    is either empty with total 0 or has lines and a total of at least 135. *)
Theorem reachable_quote (st : AppState) :
  reachable st ->
  Forall (fun l => 0 < l_qty l /\ 0 < l_each l /\ 0 < l_total l)
    (q_lines (computeQuote (selection st)))
  /\ (q_lines (computeQuote (selection st)) = []
      /\ q_total (computeQuote (selection st)) = 0
      \/ q_lines (computeQuote (selection st)) <> []
         /\ usd 135 <= q_total (computeQuote (selection st))).
Proof.
  intros Hreach. pose proof (reachable_invariant st Hreach) as Hwf.
  pose proof (rawLines_positive _ Hwf) as Hpos.
  rewrite computeQuote_eq. change RATES.minCharge with 13500. change (usd 135) with 13500.
  destruct (rawLines (selection st)) as [|l ls] eqn:Hraw.
  - cbn. split; [constructor|]. left. by split.
  - pose proof (sumTotals_positive _ Hpos ltac:(discriminate)) as Hsum.
    destruct (Z.ltb_spec (sumTotals (l :: ls)) 13500); destruct (Z.ltb_spec 0 (sumTotals (l :: ls)));
      try lia; cbn [andb q_lines q_total].
    + split.
      * apply Forall_app. split; [exact Hpos|].
        apply List.Forall_cons; [cbn [l_qty l_each l_total]; lia|apply List.Forall_nil].
      * right. split; [discriminate|lia].
    + split; [exact Hpos|]. right. split; [discriminate|lia].
Qed.

Lemma reachable_quote_witness :
  q_lines (computeQuote (selection formExample)) <> []
  /\ usd 135 <= q_total (computeQuote (selection formExample)).
Proof.
  destruct (reachable_quote formExample) as [_ [[Hnil _]|Hok]].
  - apply formExample_reachable.
  - discriminate Hnil.
  - exact Hok.
Defined.

(** X16.  In every state the form can reach (no [NaN] delivered) the cushion
    count is a key of the sectional price table: the lookup finds a base price
    from 140 to 485 and never falls back to 0. *)
Theorem reachable_sectional_priced (st : AppState) :
  reachable st ->
  exists b,
    RATES.sectionalPrices !! sectionalCushions (selection st) = Some b
    /\ sectionalBase (selection st) = b
    /\ usd 140 <= b <= usd 485.
Proof.
  intros Hreach. destruct (reachable_invariant st Hreach) as (_ & Hrange & _).
  destruct (sectionalPrices_hit _ Hrange) as (b & Hb & Hr & _).
  exists b. unfold sectionalBase. rewrite Hb.
  split; [reflexivity|]. split; [reflexivity|exact Hr].
Qed.

Lemma reachable_sectional_priced_witness :
  sectionalBase (selection formExample) = usd 485.
Proof.
  destruct (reachable_sectional_priced formExample) as (b & Hb & Hbase & _).
  - apply formExample_reachable.
  - rewrite Hbase. vm_compute in Hb. by injection Hb as <-.
Defined.

(** ** Counters *)








(** ** The shape of an amount *)


